(** * Retention engine of the tutoring platform

    Shallow embedding of the static class [RetentionAlgorithm]
    (src/backend/server.js, second document of the file) and proofs of the
    properties its specification states.

    Modelling conventions.
    - A JavaScript number that is an argument of the engine is a finite
      double, idealised as a real number ([R]); rounding error of the
      floating-point operations is not modelled.
    - The one operation of the engine that yields a non-finite value from
      finite operands is the quotient [timeDiff / Math.log(retentionRatio)]
      at [retentionRatio = 1]; the type [JS.num] carries that case with the
      result JavaScript gives.
    - A [Date] is a valid instant, counted in milliseconds ([Z]); the
      difference of two dates is their difference in milliseconds, as in
      JavaScript.  [new Date()] is the parameter [now] of the functions that
      read the clock.  The one date that may be missing is the
      [nextReviewDate] of an attempt, which the quiz controller never
      writes (it stores the date under the key [nextReview]):
      [new Date(undefined)] is an invalid date and every number computed
      from it is [NaN].
    - [Array.prototype.sort] is the stable sort of ECMAScript 2019, which
      takes a comparator result [NaN] as 0; for a consistent comparator its
      result is the one of a stable insertion sort.  Where [NaN] makes the
      comparator inconsistent the order is left to the implementation, and
      nothing is stated about it beyond arrays of two elements, on which
      every stable implementation agrees. *)

From Stdlib Require Import String DecimalString.
From Stdlib Require Import Reals Lra Lia ZArith Bool List.
From Stdlib Require Import Permutation Sorted.
Import ListNotations.

Open Scope R_scope.

(** ** JavaScript numbers and [Math] *)

Module JS.

(** A number that may have left the finite range. *)
Inductive num : Type :=
| Fin (x : R)
| PInf
| NInf
| NaN.

(** [a / b] on finite operands. *)
Definition div (a b : R) : num :=
  if Req_dec_T b 0 then
    if Rlt_dec 0 a then PInf
    else if Rlt_dec a 0 then NInf
    else NaN
  else Fin (a / b).

(** [Math.min(a, b)]. *)
Definition min (a b : num) : num :=
  match a, b with
  | NaN, _ | _, NaN => NaN
  | NInf, _ | _, NInf => NInf
  | PInf, y => y
  | x, PInf => x
  | Fin x, Fin y => Fin (Rmin x y)
  end.

(** [Math.max(a, b)]. *)
Definition max (a b : num) : num :=
  match a, b with
  | NaN, _ | _, NaN => NaN
  | PInf, _ | _, PInf => PInf
  | NInf, y => y
  | x, NInf => x
  | Fin x, Fin y => Fin (Rmax x y)
  end.

(** [a - b]. *)
Definition sub (a b : num) : num :=
  match a, b with
  | NaN, _ | _, NaN => NaN
  | Fin x, Fin y => Fin (x - y)
  | PInf, PInf | NInf, NInf => NaN
  | PInf, _ | _, NInf => PInf
  | NInf, _ | _, PInf => NInf
  end.

(** [a <= b]: false as soon as one side is [NaN]. *)
Definition leb (a b : num) : bool :=
  match a, b with
  | NaN, _ | _, NaN => false
  | NInf, _ | _, PInf => true
  | Fin x, Fin y => if Rle_dec x y then true else false
  | PInf, _ | _, NInf => false
  end.

(** [a === b] on numbers: [NaN] equals nothing. *)
Definition same (a b : num) : bool :=
  match a, b with
  | Fin x, Fin y => if Req_dec_T x y then true else false
  | PInf, PInf | NInf, NInf => true
  | _, _ => false
  end.

(** Whether [sort] reads the answer [v] of its comparator as greater than
    0; it reads [NaN] as 0. *)
Definition positive (v : num) : bool :=
  match v with
  | Fin x => if Rlt_dec 0 x then true else false
  | PInf => true
  | NInf | NaN => false
  end.

(** [Math.round(x)]: the nearest integer, halves going up. *)
Definition round (x : R) : Z := Zfloor (x + / 2).

(** [Math.abs(x)]. *)
Definition abs (x : R) : R := Rabs x.

(** The text of a whole number inside a template literal. *)
Definition show (n : Z) : string := NilZero.string_of_int (Z.to_int n).

(** The text of [Math.round(Math.abs(x))] inside a template literal. *)
Definition roundAbsText (x : num) : string :=
  match x with
  | Fin d => show (round (abs d))
  | PInf | NInf => "Infinity"
  | NaN => "NaN"
  end.

(** Milliseconds in one day: [1000 * 60 * 60 * 24]. *)
Definition msPerDay : R := 1000 * 60 * 60 * 24.

(** [x || d] on a possibly absent number: [undefined] and [0] are falsy. *)
Definition or_default (x : option R) (d : R) : R :=
  match x with
  | Some v => if Req_dec_T v 0 then d else v
  | None => d
  end.

(** A relative index of [Array.prototype.slice], brought into [0 .. len]. *)
Definition clampIndex (len k : Z) : Z :=
  if (k <? 0)%Z then Z.max (len + k) 0 else Z.min k len.

(** [l.slice(start, end)]; an omitted [end] is [None]. *)
Definition slice {A : Type} (l : list A) (start : Z) (end_ : option Z) : list A :=
  let len := Z.of_nat (length l) in
  let from := clampIndex len start in
  let to := match end_ with Some e => clampIndex len e | None => len end in
  firstn (Z.to_nat (to - from)) (skipn (Z.to_nat from) l).

(** [l.reduce((a, b) => a + b, 0)]. *)
Definition sum (l : list R) : R := fold_left Rplus l 0.

Section Sort.
Context {A : Type} (compareFn : A -> A -> num).

(** [x], which stood before every element of the sorted [l], takes its
    place: it passes exactly the elements the comparator puts first. *)
Fixpoint insert (x : A) (l : list A) : list A :=
  match l with
  | [] => [x]
  | y :: l' =>
      if positive (compareFn x y) then y :: insert x l'
      else x :: y :: l'
  end.

(** [l.sort(compareFn)]. *)
Fixpoint sort (l : list A) : list A :=
  match l with
  | [] => []
  | x :: l' => insert x (sort l')
  end.
End Sort.

End JS.

(** ** Data *)

(** One quiz attempt, as the engine reads it.  [S] is absent on records
    written before the strength was stored; [nextReviewDate] is absent on
    the attempts the quiz controller stores, which carry the date under the
    key [nextReview]. *)
Module Attempt.
Record t : Type := mk
  { date : Z;
    score : R;
    S : option R;
    nextReviewDate : option Z }.
End Attempt.

(** A quiz with its last attempt; [quizId] stands for the fields of the quiz
    document, which the engine copies and never reads. *)
Module Quiz.
Record t : Type := mk
  { quizId : Z;
    lastAttempt : option Attempt.t }.
End Quiz.

Inductive Priority : Type := high | medium | low.

Inductive Trend : Type := improving | declining | neutral.

(** An element of the array [getQuizRecommendations] returns: the copied
    quiz ([...quiz]) and the computed fields.  [retention] is absent for a
    quiz that was never attempted. *)
Module Recommendation.
Record t : Type := mk
  { quiz : Quiz.t;
    priority : Priority;
    reason : string;
    daysUntilDue : JS.num;
    isDue : bool;
    retention : option R }.
End Recommendation.

(** The object [updateLearningStrength] returns; the fields one branch does
    not set are [None]. *)
Module StrengthUpdate.
Record t : Type := mk
  { S : JS.num;
    retention : R;
    firstAttempt : option bool;
    timeSinceLastReview : option R;
    previousRetention : option R }.
End StrengthUpdate.

Module Lesson.
Record t : Type := mk
  { quizAttempts : option (list Attempt.t) }.
End Lesson.

Module LessonStats.
Record t : Type := mk
  { averageScore : Z;
    attemptCount : nat;
    averageLearningStrength : R;
    currentRetention : Z;
    trend : Trend;
    nextReviewDate : option Z }.
End LessonStats.

(** ** The engine *)

Module RetentionAlgorithm.

(** [static calculateRetention(t, S)] *)
Definition calculateRetention (t S : R) : R :=
  if Rle_dec S 0 then 0
  else
    let retention := exp (- t / S) * 100 in
    Rmax 0 (Rmin 100 retention).

(** [static calculateLearningStrength(t, t0, R0, R)]; the parameter [R] is
    [R_] here. *)
Definition calculateLearningStrength (t t0 R0 R_ : R) : JS.num :=
  let timeDiff := t - t0 in
  if Rle_dec timeDiff 0 then JS.Fin 5
  else if Rle_dec R_ 0 then JS.Fin 5
  else if Rle_dec R0 0 then JS.Fin 5
  else
    let retentionRatio := R0 / R_ in
    if Rle_dec retentionRatio 0 then JS.Fin 5
    else
      let S := JS.div timeDiff (ln retentionRatio) in
      JS.max (JS.Fin 1) (JS.min (JS.Fin 60) S).

(** [static scoreToRetention(score)] *)
Definition scoreToRetention (score : R) : R :=
  if Rle_dec 90 score then 95
  else if Rle_dec 80 score then 85
  else if Rle_dec 70 score then 75
  else if Rle_dec 60 score then 60
  else if Rle_dec 50 score then 45
  else Rmax 20 (score * (4 / 10)).

(** [static calculateNextReviewDays(S, retentionThreshold = 40)];
    an omitted second argument is [None]. *)
Definition calculateNextReviewDays (S : R) (retentionThreshold : option R) : Z :=
  let threshold := match retentionThreshold with Some x => x | None => 40 end in
  let ratio := threshold / 100 in
  if Rle_dec ratio 0 then 1%Z
  else
    let daysUntilReview := - S * ln ratio in
    Z.max 1 (JS.round daysUntilReview).

(** [static calculateNextReviewDate(S, lastReviewDate = new Date())];
    [setDate(getDate() + n)] moves the date by [n] calendar days, taken
    here as [n] days of 24 hours (no clock change in between). *)
Definition calculateNextReviewDate (now : Z) (S : R) (lastReviewDate : option Z) : Z :=
  let start := match lastReviewDate with Some d => d | None => now end in
  let daysUntilReview := calculateNextReviewDays S None in
  (start + daysUntilReview * 86400000)%Z.

(** [static updateLearningStrength(attemptHistory, currentScore)];
    an [undefined] or [null] history is [None].  [currentScore] is a
    finite number: the one caller passes the score [gradeSubmission]
    computes, which is finite for every quiz that has a question. *)
Definition updateLearningStrength (now : Z) (attemptHistory : option (list Attempt.t))
    (currentScore : R) : StrengthUpdate.t :=
  match attemptHistory with
  | None | Some [] =>
      let initialRetention := scoreToRetention currentScore in
      StrengthUpdate.mk (JS.Fin 5) initialRetention (Some true) None None
  | Some (a :: rest) =>
      let lastAttempt := last (a :: rest) a in
      let currentDate := now in
      let lastDate := Attempt.date lastAttempt in
      let timeDiff := IZR (currentDate - lastDate) / JS.msPerDay in
      let previousRetention := scoreToRetention (Attempt.score lastAttempt) in
      let currentRetention := scoreToRetention currentScore in
      let S := calculateLearningStrength timeDiff 0 previousRetention currentRetention in
      StrengthUpdate.mk S currentRetention None (Some timeDiff) (Some previousRetention)
  end.

Definition priorityOrder (p : Priority) : Z :=
  match p with high => 0 | medium => 1 | low => 2 end.

(** The callback of [quizzes.map] in [getQuizRecommendations]. *)
Definition recommend (now : Z) (quiz : Quiz.t) : Recommendation.t :=
  match Quiz.lastAttempt quiz with
  | None =>
      Recommendation.mk quiz high "New quiz - never attempted" (JS.Fin 0) true None
  | Some lastAttempt =>
      let lastAttemptDate := Attempt.date lastAttempt in
      let daysSinceReview := IZR (now - lastAttemptDate) / JS.msPerDay in
      let daysUntilDue :=
        match Attempt.nextReviewDate lastAttempt with
        | Some nextReviewDate => JS.Fin (IZR (nextReviewDate - now) / JS.msPerDay)
        | None => JS.NaN
        end in
      let isDue := JS.leb daysUntilDue (JS.Fin 0) in
      let '(priority, reason) :=
        if isDue then
          (high, ("Overdue by " ++ JS.roundAbsText daysUntilDue ++ " days")%string)
        else if JS.leb daysUntilDue (JS.Fin 1) then (medium, "Due soon"%string)
        else if Rlt_dec (Attempt.score lastAttempt) 70 then
          (high, "Low score - needs reinforcement"%string)
        else (low, "Review upcoming"%string) in
      Recommendation.mk quiz priority reason (JS.max (JS.Fin 0) daysUntilDue) isDue
        (Some (calculateRetention daysSinceReview
                 (JS.or_default (Attempt.S lastAttempt) 5)))
  end.

(** The comparator of [.sort] in [getQuizRecommendations]. *)
Definition compareFn (a b : Recommendation.t) : JS.num :=
  let priorityDiff :=
    (priorityOrder (Recommendation.priority a)
     - priorityOrder (Recommendation.priority b))%Z in
  if negb (priorityDiff =? 0)%Z then JS.Fin (IZR priorityDiff)
  else JS.sub (Recommendation.daysUntilDue a) (Recommendation.daysUntilDue b).

(** [static getQuizRecommendations(quizzes)] *)
Definition getQuizRecommendations (now : Z) (quizzes : list Quiz.t)
    : list Recommendation.t :=
  JS.sort compareFn (map (recommend now) quizzes).

(** [static calculateLessonStats(lesson)] *)
Definition calculateLessonStats (now : Z) (lesson : Lesson.t) : LessonStats.t :=
  match Lesson.quizAttempts lesson with
  | None | Some [] => LessonStats.mk 0 0 5 0 neutral None
  | Some ((a :: rest) as attempts) =>
      let scores := map Attempt.score attempts in
      let averageScore := JS.sum scores / INR (length scores) in
      let trend :=
        if (2 <=? length attempts)%nat then
          let recentAvg :=
            JS.sum (JS.slice scores (-3) None)
            / IZR (Z.min 3 (Z.of_nat (length scores))) in
          let olderAvg :=
            JS.sum (JS.slice scores 0 (Some (-3)%Z))
            / IZR (Z.max 1 (Z.of_nat (length scores) - 3)) in
          if Rlt_dec (olderAvg + 5) recentAvg then improving
          else if Rlt_dec recentAvg (olderAvg - 5) then declining
          else neutral
        else neutral in
      let lastAttempt := last attempts a in
      let averageLearningStrength := JS.or_default (Attempt.S lastAttempt) 5 in
      let lastDate := Attempt.date lastAttempt in
      let daysSinceReview := IZR (now - lastDate) / JS.msPerDay in
      let currentRetention := calculateRetention daysSinceReview averageLearningStrength in
      LessonStats.mk
        (JS.round averageScore)
        (length attempts)
        (IZR (JS.round (averageLearningStrength * 10)) / 10)
        (JS.round currentRetention)
        trend
        (Some (calculateNextReviewDate now averageLearningStrength (Some lastDate)))
  end.

End RetentionAlgorithm.

(** ** Vocabulary of the specification *)

Module Spec.
Import RetentionAlgorithm.

(** [x] brought into the closed range from [lo] to [hi]. *)
Definition clamp (lo hi x : R) : R := Rmax lo (Rmin hi x).

(** The decay formula [100 * e^(-t/S)]. *)
Definition decay (t S : R) : R := 100 * exp (- (t / S)).

(** The decay formula inverted between two readings:
    [timeGapDays / ln(previousRetention / currentRetention)]. *)
Definition invertedDecay (timeGapDays previousRetention currentRetention : R) : R :=
  timeGapDays / ln (previousRetention / currentRetention).

(** The day at which the decay formula reaches [threshold]:
    [-S * ln(threshold/100)]. *)
Definition thresholdDay (S threshold : R) : R := - S * ln (threshold / 100).

(** The rank of a priority: high = 0, medium = 1, low = 2. *)
Definition priorityRank (p : Priority) : Z :=
  match p with
  | high => 0
  | medium => 1
  | low => 2
  end.

(** A quiz whose last attempt, if it has one, carries a next review date. *)
Definition dated (q : Quiz.t) : Prop :=
  forall a, Quiz.lastAttempt q = Some a -> Attempt.nextReviewDate a <> None.

(** The signed distance in days from [now] to the stored next review of a
    quiz, before any clamping: [0] for a quiz never attempted, not a number
    when the last attempt carries no next review date. *)
Definition rawDaysUntilDue (now : Z) (q : Quiz.t) : JS.num :=
  match Quiz.lastAttempt q with
  | None => JS.Fin 0
  | Some a =>
      match Attempt.nextReviewDate a with
      | Some next => JS.Fin (IZR (next - now) / JS.msPerDay)
      | None => JS.NaN
      end
  end.

(** [a] may stand before [b] under the key (priority rank, [days]). *)
Definition keyLe (days : Recommendation.t -> JS.num) (a b : Recommendation.t) : Prop :=
  (priorityRank (Recommendation.priority a)
   < priorityRank (Recommendation.priority b))%Z
  \/ (priorityRank (Recommendation.priority a)
      = priorityRank (Recommendation.priority b)
      /\ JS.leb (days a) (days b) = true).

(** The key whose second component is the raw signed distance. *)
Definition rawKeyLe (now : Z) : Recommendation.t -> Recommendation.t -> Prop :=
  keyLe (fun r => rawDaysUntilDue now (Recommendation.quiz r)).

(** The key whose second component is the returned [daysUntilDue]. *)
Definition returnedKeyLe : Recommendation.t -> Recommendation.t -> Prop :=
  keyLe Recommendation.daysUntilDue.

(** Two results with the same key. *)
Definition tied (a b : Recommendation.t) : bool :=
  (priorityRank (Recommendation.priority a)
   =? priorityRank (Recommendation.priority b))%Z
  && JS.same (Recommendation.daysUntilDue a) (Recommendation.daysUntilDue b).

(** The scheduled day count is the exact threshold day of some instant
    [t] at which the decay model gives 40, rounded to the nearest integer
    and floored at 1. *)
Definition roundTrip (S : R) : Prop :=
  exists t : R,
    calculateRetention t S = 40
    /\ calculateNextReviewDays S (Some 40) = Z.max 1 (JS.round t).


(** The last [n] elements, or all of them when there are fewer. *)
Definition lastN {A : Type} (n : nat) (l : list A) : list A :=
  skipn (length l - n) l.

(** Everything but the last [n] elements. *)
Definition allButLastN {A : Type} (n : nat) (l : list A) : list A :=
  firstn (length l - n) l.


End Spec.

(** ** Auxiliary notions of the proofs *)

Module Aux.

(** [sum / max(1, length)]: the mean, with [0] for no scores. *)
Definition meanOrZero (l : list R) : R := JS.sum l / INR (Nat.max 1 (length l)).

(** The three-way comparison of the last three scores with the scores
    before them, on [meanOrZero]. *)
Definition trendOrZero (scores : list R) : Trend :=
  let recent := meanOrZero (Spec.lastN 3 scores) in
  let older := meanOrZero (Spec.allButLastN 3 scores) in
  if Rlt_dec (older + 5) recent then improving
  else if Rlt_dec recent (older - 5) then declining
  else neutral.

End Aux.

(** ** Sample inputs *)

Module Examples.

Definition day : Z := 86400000.

(** The instant of the call. *)
Definition now : Z := 1000 * day.

(** Last reviewed ten days ago, review due since yesterday. *)
Definition overdueByOne : Quiz.t :=
  Quiz.mk 1 (Some (Attempt.mk (990 * day) 80 (Some 5) (Some (999 * day)%Z))).

(** Last reviewed fifteen days ago, review due since five days. *)
Definition overdueByFive : Quiz.t :=
  Quiz.mk 2 (Some (Attempt.mk (985 * day) 80 (Some 5) (Some (995 * day)%Z))).

Definition neverAttempted : Quiz.t := Quiz.mk 3 None.

(** Score 55 three days ago, next review in two days. *)
Definition lowScoreLater : Quiz.t :=
  Quiz.mk 4 (Some (Attempt.mk (997 * day) 55 (Some 5) (Some (1002 * day)%Z))).

(** Two attempts at one lesson, both scored 50, as the controller stores
    them. *)
Definition firstTry : Attempt.t := Attempt.mk (990 * day) 50 (Some 5) None.
Definition secondTry : Attempt.t := Attempt.mk (996 * day) 50 (Some 5) None.

(** Attempted three days ago with score 80 and with score 55, the attempt
    carrying no next review date. *)
Definition undated : Quiz.t :=
  Quiz.mk 5 (Some (Attempt.mk (997 * day) 80 (Some 5) None)).
Definition lowScoreUndated : Quiz.t :=
  Quiz.mk 6 (Some (Attempt.mk (997 * day) 55 (Some 5) None)).

End Examples.

(** ** The quiz controller

    The handlers of [EnhancedQuizController] that call the engine, from the
    point where the documents are loaded: the student is the list of the
    stored attempts ([None] when no student document exists), and an
    identifier is an integer compared with [=?]. *)

Inductive HttpResult (A : Type) : Type :=
| Status200 (body : A)
| Status400 (message : string)
| Status404 (message : string).
Arguments Status200 {A} body.
Arguments Status400 {A} message.
Arguments Status404 {A} message.

(** The quiz an attempt refers to, as [populate] loads it. *)
Module QuizRef.
Record t : Type := mk
  { _id : Z;
    chapter : option Z }.
End QuizRef.

(** An element of [student.quizAttempts]: the quiz it belongs to and the
    fields the engine reads.  The attempts [submitQuizAttemptWithRetention]
    stores have no [nextReviewDate]. *)
Module StoredAttempt.
Record t : Type := mk
  { quiz : QuizRef.t;
    fields : Attempt.t }.
End StoredAttempt.

Module RecommendedResponse.
Record t : Type := mk
  { recommendations : list Recommendation.t;
    totalAvailable : nat;
    dueCount : nat }.
End RecommendedResponse.

Module CurvePoint.
Record t : Type := mk
  { day : nat;
    retention : Z;
    isDue : bool }.
End CurvePoint.

(** The body of the retention-curve response; the stored next review date,
    which the handler only passes on, is left out. *)
Module CurveResponse.
Record t : Type := mk
  { S : option R;
    lastAttemptDate : option Z;
    curve : list CurvePoint.t;
    daysUntilReview : option Z;
    message : option string }.
End CurveResponse.

Module EnhancedQuizController.
Import RetentionAlgorithm.

(** [attempts.length > 0 ? attempts[attempts.length - 1] : null] *)
Definition lastOrNull {A : Type} (attempts : list A) : option A :=
  if (0 <? length attempts)%nat then nth_error attempts (length attempts - 1)
  else None.

(** The array [quizzesWithHistory] of [getRecommendedQuizzes]. *)
Definition quizzesWithHistory (quizAttempts : list StoredAttempt.t) (quizzes : list Z)
    : list Quiz.t :=
  map (fun quiz =>
         let attempts :=
           filter (fun attempt =>
                     (QuizRef._id (StoredAttempt.quiz attempt) =? quiz)%Z)
             quizAttempts in
         Quiz.mk quiz (lastOrNull (map StoredAttempt.fields attempts)))
    quizzes.

(** [static async getRecommendedQuizzes(req, res)] *)
Definition getRecommendedQuizzes (now : Z) (student : option (list StoredAttempt.t))
    (quizzes : list Z) : HttpResult RecommendedResponse.t :=
  match student with
  | None => Status404 "Student not found"
  | Some quizAttempts =>
      let recommendations :=
        getQuizRecommendations now (quizzesWithHistory quizAttempts quizzes) in
      let topRecommendations := JS.slice recommendations 0 (Some 10%Z) in
      Status200
        (RecommendedResponse.mk topRecommendations
           (length recommendations)
           (length (filter Recommendation.isDue recommendations)))
  end.

(** The loop [for (let t = 0; t <= 30; t += 1)] of [getRetentionCurve]. *)
Definition curvePoints (S : R) : list CurvePoint.t :=
  map (fun t =>
         let retention := calculateRetention (INR t) S in
         CurvePoint.mk t (JS.round retention)
           (if Rle_dec retention 40 then true else false))
    (seq 0 31).

(** [static async getRetentionCurve(req, res)] *)
Definition getRetentionCurve (student : option (list StoredAttempt.t)) (quizId : Z)
    : HttpResult CurveResponse.t :=
  match student with
  | None => Status404 "Student not found"
  | Some quizAttempts =>
      let attempts :=
        filter (fun attempt => (QuizRef._id (StoredAttempt.quiz attempt) =? quizId)%Z)
          quizAttempts in
      match lastOrNull (map StoredAttempt.fields attempts) with
      | None =>
          Status200
            (CurveResponse.mk None None [] None
               (Some "No attempts found for this quiz"%string))
      | Some lastAttempt =>
          let S := JS.or_default (Attempt.S lastAttempt) 5 in
          Status200
            (CurveResponse.mk (Some S) (Some (Attempt.date lastAttempt)) (curvePoints S)
               (Some (calculateNextReviewDays S None)) None)
      end
  end.

(** [static async getLessonStats(req, res)]: the [stats] of the response. *)
Definition getLessonStats (now : Z) (student : option (list StoredAttempt.t))
    (lessonId : Z) : HttpResult LessonStats.t :=
  match student with
  | None => Status404 "Student not found"
  | Some quizAttempts =>
      let lessonAttempts :=
        filter (fun attempt =>
                  match QuizRef.chapter (StoredAttempt.quiz attempt) with
                  | Some chapter => (chapter =? lessonId)%Z
                  | None => false
                  end)
          quizAttempts in
      if (length lessonAttempts =? 0)%nat then
        Status200 (LessonStats.mk 0 0 5 0 neutral None)
      else
        Status200
          (calculateLessonStats now
             (Lesson.mk (Some (map StoredAttempt.fields lessonAttempts))))
  end.

Section Grading.
Context {Answer : Type} (Answer_eq_dec : forall x y : Answer, {x = y} + {x <> y}).

Record Question : Type := mkQuestion
  { correctAnswer : Answer;
    explanation : string }.

(** An element of [results]. *)
Record Graded : Type := mkGraded
  { isCorrect : bool;
    userAnswer : Answer;
    expectedAnswer : Answer;
    gradedExplanation : string }.

(** The validation and scoring steps of [submitQuizAttemptWithRetention]:
    the array [results] and [scorePercentage], which is [NaN] for a quiz
    without questions. *)
Definition gradeSubmission (questions : list Question) (answers : option (list Answer))
    : HttpResult (list Graded * JS.num) :=
  match answers with
  | None =>
      Status400
        "Invalid submission: number of answers does not match number of questions"
  | Some answers =>
      if negb (length answers =? length questions)%nat then
        Status400
          "Invalid submission: number of answers does not match number of questions"
      else
        let results :=
          map (fun qa : Question * Answer =>
                 let (question, answer) := qa in
                 mkGraded
                   (if Answer_eq_dec (correctAnswer question) answer then true else false)
                   answer (correctAnswer question) (explanation question))
            (combine questions answers) in
        let correctCount := length (filter isCorrect results) in
        let scorePercentage :=
          match JS.div (INR correctCount) (INR (length questions)) with
          | JS.Fin ratio => JS.Fin (IZR (JS.round (ratio * 100)))
          | other => other
          end in
        Status200 (results, scorePercentage)
  end.

End Grading.

End EnhancedQuizController.

(** ** The socket registry of the server

    The object [userSockets] of the first document of server.js, as the list
    of its entries in enumeration order.  A user id is the id string of a
    user document, which is neither an array index nor the name of a
    property every object inherits; the empty string stands for a missing
    id. *)

Module SocketServer.

Definition UserSockets : Type := list (string * string).

(** [userSockets[userId]] *)
Fixpoint lookup (userSockets : UserSockets) (userId : string) : option string :=
  match userSockets with
  | [] => None
  | (k, v) :: rest => if String.eqb k userId then Some v else lookup rest userId
  end.

(** [userSockets[userId] = socketId]: an entry that exists keeps its place. *)
Fixpoint assign (userSockets : UserSockets) (userId socketId : string) : UserSockets :=
  match userSockets with
  | [] => [(userId, socketId)]
  | (k, v) :: rest =>
      if String.eqb k userId then (k, socketId) :: rest
      else (k, v) :: assign rest userId socketId
  end.

(** The handler of ['join'] on the socket [socketId]. *)
Definition join (socketId userId : string) (userSockets : UserSockets) : UserSockets :=
  if String.eqb userId EmptyString then userSockets
  else assign userSockets userId socketId.

(** The handler of ['sendMessage']: whether the message is emitted to the
    room of the recipient. *)
Definition sendMessage (userSockets : UserSockets) (recipientId : string) : bool :=
  match lookup userSockets recipientId with
  | Some recipientSocketId => negb (String.eqb recipientSocketId EmptyString)
  | None => false
  end.

(** The handler of ['disconnect']: the loop deletes the first entry of the
    socket and stops. *)
Fixpoint disconnect (socketId : string) (userSockets : UserSockets) : UserSockets :=
  match userSockets with
  | [] => []
  | (userId, v) :: rest =>
      if String.eqb v socketId then rest
      else (userId, v) :: disconnect socketId rest
  end.

End SocketServer.

(** ** Sample documents of the controller *)

Module Stored.

(** Attempts at the quizzes 1 and 4 of chapter 7, and one at quiz 2, which
    has no chapter. *)
Definition early : StoredAttempt.t :=
  StoredAttempt.mk (QuizRef.mk 1 (Some 7%Z)) Examples.firstTry.
Definition other : StoredAttempt.t :=
  StoredAttempt.mk (QuizRef.mk 4 (Some 7%Z))
    (Attempt.mk (997 * Examples.day) 55 (Some 5) None).
Definition late : StoredAttempt.t :=
  StoredAttempt.mk (QuizRef.mk 1 (Some 7%Z)) Examples.secondTry.
Definition loose : StoredAttempt.t :=
  StoredAttempt.mk (QuizRef.mk 2 None)
    (Attempt.mk (998 * Examples.day) 90 None None).

Definition student : list StoredAttempt.t := [early; other; late; loose].

(** A quiz of two questions, the answers being option numbers. *)
Definition questions : list (@EnhancedQuizController.Question Z) :=
  [EnhancedQuizController.mkQuestion 2%Z "two is even";
   EnhancedQuizController.mkQuestion 0%Z "zero is neutral"].

End Stored.

(** ** Arithmetic of [Math.round], [exp] and [ln] *)

Lemma round_bounds (x : R) : x - / 2 < IZR (JS.round x) <= x + / 2.
Proof.
  unfold JS.round.
  pose proof (Zfloor_bound (x + / 2)) as [Hlo Hhi].
  lra.
Qed.

Lemma round_eq (x : R) (z : Z) : IZR z - / 2 <= x < IZR z + / 2 -> JS.round x = z.
Proof.
  intros [Hlo Hhi]. unfold JS.round. apply Zfloor_eq. lra.
Qed.

Lemma round_IZR (z : Z) : JS.round (IZR z) = z.
Proof. apply round_eq. lra. Qed.

Lemma round_mono (x y : R) : x <= y -> (JS.round x <= JS.round y)%Z.
Proof.
  intros Hxy. unfold JS.round. apply Zfloor_lub.
  pose proof (Zfloor_bound (x + / 2)) as [Hlo _]. lra.
Qed.

Lemma exp_le_mono (x y : R) : x <= y -> exp x <= exp y.
Proof.
  intros [Hlt | ->]; [left; now apply exp_increasing | right; reflexivity].
Qed.

Lemma exp_nonpos_le_1 (x : R) : x <= 0 -> exp x <= 1.
Proof. intros Hx. rewrite <- exp_0. now apply exp_le_mono. Qed.

(** ** The decay model *)

Section Decay.
Import RetentionAlgorithm.

Lemma calculateRetention_unfold (t S : R) :
  0 < S -> calculateRetention t S = Rmax 0 (Rmin 100 (exp (- t / S) * 100)).
Proof.
  intros HS. unfold calculateRetention.
  destruct (Rle_dec S 0); [lra | reflexivity].
Qed.

Lemma calculateRetention_collapsed (t S : R) :
  S <= 0 -> calculateRetention t S = 0.
Proof.
  intros HS. unfold calculateRetention.
  destruct (Rle_dec S 0); [reflexivity | lra].
Qed.

(** From the instant of the review on, the clamp is idle. *)
Lemma calculateRetention_after_review (t S : R) :
  0 < S -> 0 <= t -> calculateRetention t S = 100 * exp (- (t / S)).
Proof.
  intros HS Ht. rewrite calculateRetention_unfold by assumption.
  replace (- t / S) with (- (t / S)) by (unfold Rdiv; ring).
  assert (Hq : 0 <= t / S) by (apply Rmult_le_pos; [lra | left; now apply Rinv_0_lt_compat]).
  pose proof (exp_pos (- (t / S))) as Hpos.
  pose proof (exp_nonpos_le_1 (- (t / S))) as Hle.
  rewrite Rmin_right by lra. rewrite Rmax_right by lra. ring.
Qed.

Lemma calculateRetention_range (t S : R) : 0 <= calculateRetention t S <= 100.
Proof.
  unfold calculateRetention. destruct (Rle_dec S 0); [lra |].
  split; [apply Rmax_l |].
  apply Rmax_lub; [lra | apply Rmin_l].
Qed.

Lemma quotient_le_compat (a b S : R) : 0 < S -> a <= b -> a / S <= b / S.
Proof.
  intros HS Hab. unfold Rdiv.
  apply Rmult_le_compat_r; [left; now apply Rinv_0_lt_compat | assumption].
Qed.

Lemma quotient_lt_compat (a b S : R) : 0 < S -> a < b -> a / S < b / S.
Proof.
  intros HS Hab. unfold Rdiv.
  apply Rmult_lt_compat_r; [now apply Rinv_0_lt_compat | assumption].
Qed.

Lemma calculateRetention_antitone (S t1 t2 : R) :
  0 < S -> t1 <= t2 -> calculateRetention t2 S <= calculateRetention t1 S.
Proof.
  intros HS Ht. rewrite !calculateRetention_unfold by assumption.
  assert (He : exp (- t2 / S) <= exp (- t1 / S)).
  { apply exp_le_mono, quotient_le_compat; lra. }
  apply Rle_max_compat_l, Rle_min_compat_l. lra.
Qed.

Lemma calculateRetention_decreasing (S t1 t2 : R) :
  0 < S -> 0 <= t1 < t2 -> calculateRetention t2 S < calculateRetention t1 S.
Proof.
  intros HS [Ht1 Ht]. rewrite !calculateRetention_after_review by lra.
  assert (He : exp (- (t2 / S)) < exp (- (t1 / S))).
  { apply exp_increasing. pose proof (quotient_lt_compat t1 t2 S HS Ht). lra. }
  lra.
Qed.

Lemma calculateRetention_increasing_in_strength (t S1 S2 : R) :
  0 < t -> 0 < S1 < S2 -> calculateRetention t S1 < calculateRetention t S2.
Proof.
  intros Ht [HS1 HS]. rewrite !calculateRetention_after_review by lra.
  assert (Hinv : / S2 < / S1) by (apply Rinv_lt_contravar; [nra | assumption]).
  assert (He : exp (- (t / S1)) < exp (- (t / S2))).
  { apply exp_increasing. unfold Rdiv. nra. }
  lra.
Qed.

Lemma calculateRetention_monotone_in_strength (t S1 S2 : R) :
  0 <= t -> S1 <= S2 -> calculateRetention t S1 <= calculateRetention t S2.
Proof.
  intros Ht HS.
  destruct (Rle_dec S1 0) as [H1 | H1].
  - rewrite (calculateRetention_collapsed t S1) by assumption.
    apply calculateRetention_range.
  - destruct (Rle_lt_or_eq_dec S1 S2 HS) as [Hlt | ->]; [| lra].
    destruct (Rle_lt_or_eq_dec 0 t Ht) as [Hpos | <-].
    + left. apply calculateRetention_increasing_in_strength; lra.
    + rewrite !calculateRetention_after_review by lra.
      unfold Rdiv. rewrite !Rmult_0_l. lra.
Qed.

(** C4. For every [t] and every [S > 0], [calculateRetention t S] is the
    decay formula [100 * e^(-t/S)] clamped to the range 0 to 100, hence 100
    at [t = 0]; for fixed [S > 0] it never increases with [t], and falls
    strictly from [t = 0] on; for fixed [t > 0] it rises strictly with
    [S > 0]; for every [S <= 0] it is 0 whatever [t] is. *)
Theorem calculateRetention_decay_model :
  (forall t S, 0 < S -> calculateRetention t S = Spec.clamp 0 100 (Spec.decay t S))
  /\ (forall S, 0 < S -> calculateRetention 0 S = 100)
  /\ (forall S t1 t2, 0 < S -> t1 <= t2 ->
        calculateRetention t2 S <= calculateRetention t1 S)
  /\ (forall S t1 t2, 0 < S -> 0 <= t1 < t2 ->
        calculateRetention t2 S < calculateRetention t1 S)
  /\ (forall t S1 S2, 0 < t -> 0 < S1 < S2 ->
        calculateRetention t S1 < calculateRetention t S2)
  /\ (forall t S, S <= 0 -> calculateRetention t S = 0).
Proof.
  repeat split.
  - intros t S HS. rewrite calculateRetention_unfold by assumption.
    unfold Spec.clamp, Spec.decay. do 2 f_equal.
    replace (- t / S) with (- (t / S)) by (unfold Rdiv; ring). ring.
  - intros S HS. rewrite calculateRetention_after_review by lra.
    unfold Rdiv. rewrite Rmult_0_l, Ropp_0, exp_0. ring.
  - intros S t1 t2. apply calculateRetention_antitone.
  - intros S t1 t2 HS Ht. apply calculateRetention_decreasing; assumption.
  - intros t S1 S2 Ht HS. apply calculateRetention_increasing_in_strength; assumption.
  - intros t S. apply calculateRetention_collapsed.
Qed.

Lemma calculateRetention_decay_model_witness :
  calculateRetention 3 5 = Spec.clamp 0 100 (Spec.decay 3 5)
  /\ calculateRetention 0 5 = 100
  /\ calculateRetention 4 5 <= calculateRetention (-2) 5
  /\ calculateRetention 4 5 < calculateRetention 3 5
  /\ calculateRetention 3 5 < calculateRetention 3 21
  /\ calculateRetention 3 (-1) = 0.
Proof.
  destruct calculateRetention_decay_model as (Hf & H0 & Hw & Hs & Hi & Hz).
  repeat split.
  - apply (Hf 3 5); lra.
  - apply (H0 5); lra.
  - apply (Hw 5 (-2) 4); lra.
  - apply (Hs 5 3 4); lra.
  - apply (Hi 3 5 21); lra.
  - apply (Hz 3 (-1)); lra.
Defined.

End Decay.

(** ** The strength estimator *)

Section Strength.
Import RetentionAlgorithm.

Lemma ratio_pos (R0 R_ : R) : 0 < R0 -> 0 < R_ -> 0 < R0 / R_.
Proof.
  intros H0 H. unfold Rdiv. apply Rmult_lt_0_compat; [assumption |].
  now apply Rinv_0_lt_compat.
Qed.

Lemma ratio_one (R0 R_ : R) : 0 < R_ -> R0 / R_ = 1 -> R0 = R_.
Proof.
  intros H Heq. replace R0 with (R0 / R_ * R_) by (field; lra).
  rewrite Heq. ring.
Qed.

Lemma ln_ratio_zero (R0 R_ : R) :
  0 < R0 -> 0 < R_ -> (ln (R0 / R_) = 0 <-> R0 = R_).
Proof.
  intros H0 H. split.
  - intros Hln. apply ratio_one; [assumption |].
    destruct (Req_dec_T (R0 / R_) 1) as [Heq | Hne]; [assumption |].
    exfalso. apply (ln_neq_0 (R0 / R_)); auto using ratio_pos.
  - intros ->. replace (R_ / R_) with 1 by (field; lra). apply ln_1.
Qed.

(** Past the guards the function is the clamped quotient. *)
Lemma calculateLearningStrength_guarded (t t0 R0 R_ : R) :
  0 < t - t0 -> 0 < R0 -> 0 < R_ ->
  calculateLearningStrength t t0 R0 R_
  = JS.max (JS.Fin 1) (JS.min (JS.Fin 60) (JS.div (t - t0) (ln (R0 / R_)))).
Proof.
  intros Hgap H0 H. unfold calculateLearningStrength.
  pose proof (ratio_pos R0 R_ H0 H) as Hratio.
  destruct (Rle_dec (t - t0) 0); [lra |].
  destruct (Rle_dec R_ 0); [lra |].
  destruct (Rle_dec R0 0); [lra |].
  destruct (Rle_dec (R0 / R_) 0); [lra | reflexivity].
Qed.

Lemma calculateLearningStrength_default (t t0 R0 R_ : R) :
  t - t0 <= 0 \/ R0 <= 0 \/ R_ <= 0 \/ R0 / R_ <= 0 ->
  calculateLearningStrength t t0 R0 R_ = JS.Fin 5.
Proof.
  intros Hguard. unfold calculateLearningStrength.
  destruct (Rle_dec (t - t0) 0); [reflexivity |].
  destruct (Rle_dec R_ 0); [reflexivity |].
  destruct (Rle_dec R0 0); [reflexivity |].
  destruct (Rle_dec (R0 / R_) 0); [reflexivity |].
  exfalso. intuition lra.
Qed.

Lemma clamp_range (lo hi x : R) : lo <= hi -> lo <= Spec.clamp lo hi x <= hi.
Proof.
  intros Hlh. unfold Spec.clamp. split; [apply Rmax_l |].
  apply Rmax_lub; [assumption | apply Rmin_l].
Qed.

Lemma calculateLearningStrength_finite_quotient (t t0 R0 R_ : R) :
  0 < t - t0 -> 0 < R0 -> 0 < R_ -> R0 <> R_ ->
  calculateLearningStrength t t0 R0 R_
  = JS.Fin (Spec.clamp 1 60 (Spec.invertedDecay (t - t0) R0 R_)).
Proof.
  intros Hgap H0 H Hne. rewrite calculateLearningStrength_guarded by assumption.
  unfold JS.div. destruct (Req_dec_T (ln (R0 / R_)) 0) as [Hz | Hnz].
  - exfalso. apply Hne. now apply ln_ratio_zero.
  - reflexivity.
Qed.

Lemma calculateLearningStrength_infinite_quotient (t t0 R_ : R) :
  0 < t - t0 -> 0 < R_ -> calculateLearningStrength t t0 R_ R_ = JS.Fin 60.
Proof.
  intros Hgap H. rewrite calculateLearningStrength_guarded by assumption.
  unfold JS.div. destruct (Req_dec_T (ln (R_ / R_)) 0) as [Hz | Hnz].
  - destruct (Rlt_dec 0 (t - t0)); [| lra]. simpl.
    rewrite Rmax_right by lra. reflexivity.
  - exfalso. apply Hnz. now apply ln_ratio_zero.
Qed.

Lemma calculateLearningStrength_range (t t0 R0 R_ : R) :
  exists s, calculateLearningStrength t t0 R0 R_ = JS.Fin s /\ 1 <= s <= 60.
Proof.
  destruct (Rle_dec (t - t0) 0) as [Hg | Hg];
    [exists 5; split; [apply calculateLearningStrength_default; auto | lra] |].
  destruct (Rle_dec R0 0) as [H0 | H0];
    [exists 5; split; [apply calculateLearningStrength_default; auto | lra] |].
  destruct (Rle_dec R_ 0) as [H | H];
    [exists 5; split; [apply calculateLearningStrength_default; auto | lra] |].
  destruct (Req_dec_T R0 R_) as [-> | Hne].
  - exists 60. split; [apply calculateLearningStrength_infinite_quotient; lra | lra].
  - eexists. split; [apply calculateLearningStrength_finite_quotient; lra |].
    apply clamp_range. lra.
Qed.

(** C5. The strength estimator always returns a finite value in the closed
    range 1 to 60.  With a positive time gap, positive retentions and a
    positive ratio it returns the quotient
    [timeGapDays / ln(previousRetention / currentRetention)] clamped to that
    range (the quotient is infinite when the two retentions are equal, and
    the clamp then gives 60); when the gap, a retention or the ratio is not
    positive it returns the default 5. *)
Theorem calculateLearningStrength_estimate (t t0 R0 R_ : R) :
  (exists s, calculateLearningStrength t t0 R0 R_ = JS.Fin s /\ 1 <= s <= 60)
  /\ (0 < t - t0 -> 0 < R0 -> 0 < R_ -> 0 < R0 / R_ ->
      calculateLearningStrength t t0 R0 R_
      = JS.max (JS.Fin 1) (JS.min (JS.Fin 60) (JS.div (t - t0) (ln (R0 / R_))))
      /\ (R0 <> R_ ->
          calculateLearningStrength t t0 R0 R_
          = JS.Fin (Spec.clamp 1 60 (Spec.invertedDecay (t - t0) R0 R_)))
      /\ (R0 = R_ -> calculateLearningStrength t t0 R0 R_ = JS.Fin 60))
  /\ (t - t0 <= 0 \/ R0 <= 0 \/ R_ <= 0 \/ R0 / R_ <= 0 ->
      calculateLearningStrength t t0 R0 R_ = JS.Fin 5).
Proof.
  split; [apply calculateLearningStrength_range |]. split.
  - intros Hgap H0 H _. split; [now apply calculateLearningStrength_guarded |].
    split.
    + now apply calculateLearningStrength_finite_quotient.
    + intros ->. now apply calculateLearningStrength_infinite_quotient.
  - apply calculateLearningStrength_default.
Qed.

Lemma calculateLearningStrength_estimate_witness :
  calculateLearningStrength 10 0 95 60
  = JS.Fin (Spec.clamp 1 60 (Spec.invertedDecay (10 - 0) 95 60))
  /\ calculateLearningStrength 10 0 60 60 = JS.Fin 60
  /\ calculateLearningStrength 3 3 95 60 = JS.Fin 5.
Proof.
  split; [| split].
  - destruct (calculateLearningStrength_estimate 10 0 95 60) as (_ & Hq & _).
    apply Hq; lra.
  - destruct (calculateLearningStrength_estimate 10 0 60 60) as (_ & Hq & _).
    apply Hq; lra.
  - destruct (calculateLearningStrength_estimate 3 3 95 60) as (_ & _ & Hd).
    apply Hd. left. lra.
Defined.

End Strength.

(** ** The scheduler *)

Section Scheduler.
Import RetentionAlgorithm.

Lemma pow_le_exp (x : R) (n : nat) : 0 <= 1 + x -> (1 + x) ^ n <= exp (INR n * x).
Proof.
  intros Hx. induction n as [| n IH].
  - simpl. rewrite Rmult_0_l, exp_0. lra.
  - rewrite S_INR, Rmult_plus_distr_r, Rmult_1_l, exp_plus.
    rewrite Rmult_comm. simpl pow.
    apply Rmult_le_compat; [assumption | now apply pow_le | apply exp_ineq1_le | exact IH].
Qed.

Lemma exp_lower_bound : 4 / 10 <= exp (- (9 / 10)).
Proof.
  pose proof (pow_le_exp (- (9 / 640)) 64) as H.
  replace (INR 64 * - (9 / 640)) with (- (9 / 10)) in H
    by (rewrite INR_IZR_INZ; simpl; lra).
  apply Rle_trans with (2 := H ltac:(lra)).
  replace ((1 + - (9 / 640)) ^ 64)
    with (((((((1 + - (9 / 640)) ^ 2) ^ 2) ^ 2) ^ 2) ^ 2) ^ 2)
    by (rewrite <- !pow_mult; reflexivity).
  assert (H1 : 97207 / 100000 <= (1 + - (9 / 640)) ^ 2) by (simpl; lra).
  assert (H2 : 94492 / 100000 <= ((1 + - (9 / 640)) ^ 2) ^ 2).
  { apply Rle_trans with ((97207 / 100000) ^ 2); [simpl; lra | apply pow_incr; lra]. }
  assert (H3 : 89287 / 100000 <= (((1 + - (9 / 640)) ^ 2) ^ 2) ^ 2).
  { apply Rle_trans with ((94492 / 100000) ^ 2); [simpl; lra | apply pow_incr; lra]. }
  assert (H4 : 79721 / 100000 <= ((((1 + - (9 / 640)) ^ 2) ^ 2) ^ 2) ^ 2).
  { apply Rle_trans with ((89287 / 100000) ^ 2); [simpl; lra | apply pow_incr; lra]. }
  assert (H5 : 63554 / 100000 <= (((((1 + - (9 / 640)) ^ 2) ^ 2) ^ 2) ^ 2) ^ 2).
  { apply Rle_trans with ((79721 / 100000) ^ 2); [simpl; lra | apply pow_incr; lra]. }
  apply Rle_trans with ((63554 / 100000) ^ 2); [simpl; lra | apply pow_incr; lra].
Qed.

Lemma exp_upper_bound : exp (- (11 / 10)) < 4 / 10.
Proof.
  pose proof (pow_le_exp (11 / 40) 4) as H.
  replace (INR 4 * (11 / 40)) with (11 / 10) in H
    by (rewrite INR_IZR_INZ; simpl; lra).
  assert (Hbig : 5 / 2 < exp (11 / 10)).
  { apply Rlt_le_trans with (2 := H ltac:(lra)). simpl. lra. }
  rewrite exp_Ropp.
  apply Rmult_lt_reg_r with (exp (11 / 10)); [apply exp_pos |].
  rewrite Rinv_l by apply exp_neq_0. lra.
Qed.

Lemma ln_default_ratio : - (11 / 10) < ln (40 / 100) <= - (9 / 10).
Proof.
  assert (Hpos : 0 < 40 / 100) by lra.
  split.
  - apply exp_lt_inv. rewrite exp_ln by assumption.
    pose proof exp_upper_bound. lra.
  - destruct (Rle_dec (ln (40 / 100)) (- (9 / 10))) as [Hle | Hgt]; [assumption |].
    exfalso. apply Rnot_le_lt in Hgt. apply exp_increasing in Hgt.
    rewrite exp_ln in Hgt by assumption.
    pose proof exp_lower_bound. lra.
Qed.

Lemma calculateNextReviewDays_unfold (S threshold : R) :
  0 < threshold ->
  calculateNextReviewDays S (Some threshold)
  = Z.max 1 (JS.round (Spec.thresholdDay S threshold)).
Proof.
  intros Hth. unfold calculateNextReviewDays, Spec.thresholdDay.
  destruct (Rle_dec (threshold / 100) 0); [lra | reflexivity].
Qed.

Lemma calculateNextReviewDays_degenerate (S threshold : R) :
  threshold <= 0 -> calculateNextReviewDays S (Some threshold) = 1%Z.
Proof.
  intros Hth. unfold calculateNextReviewDays.
  destruct (Rle_dec (threshold / 100) 0); [reflexivity | lra].
Qed.

Lemma calculateNextReviewDays_at_least_one (S : R) (threshold : option R) :
  (1 <= calculateNextReviewDays S threshold)%Z.
Proof.
  unfold calculateNextReviewDays.
  destruct (Rle_dec _ 0); lia.
Qed.

(** C6. For every strength [S], positive or not, and every threshold,
    [calculateNextReviewDays] returns an integer that is at least 1: it is
    [max(1, round(-S * ln(threshold/100)))] when the threshold is positive
    and 1 when it is not; the default threshold is 40, so the day count for
    threshold 40 is at least 1 for all [S]. *)
Theorem calculateNextReviewDays_schedule (S threshold : R) :
  (1 <= calculateNextReviewDays S (Some threshold))%Z
  /\ (0 < threshold ->
      calculateNextReviewDays S (Some threshold)
      = Z.max 1 (JS.round (- S * ln (threshold / 100))))
  /\ (threshold <= 0 -> calculateNextReviewDays S (Some threshold) = 1%Z)
  /\ calculateNextReviewDays S None = calculateNextReviewDays S (Some 40)
  /\ (1 <= calculateNextReviewDays S (Some 40%R))%Z.
Proof.
  split; [apply calculateNextReviewDays_at_least_one |].
  split; [apply calculateNextReviewDays_unfold |].
  split; [apply calculateNextReviewDays_degenerate |].
  split; [reflexivity | apply calculateNextReviewDays_at_least_one].
Qed.

Lemma calculateNextReviewDays_schedule_witness :
  calculateNextReviewDays (-3) (Some 40) = Z.max 1 (JS.round (- (-3) * ln (40 / 100)))
  /\ calculateNextReviewDays 5 (Some (-10)) = 1%Z.
Proof.
  split.
  - destruct (calculateNextReviewDays_schedule (-3) 40) as (_ & Hpos & _).
    apply Hpos. lra.
  - destruct (calculateNextReviewDays_schedule 5 (-10)) as (_ & _ & Hneg & _).
    apply Hneg. lra.
Defined.

(** With the default strength the review falls five days out. *)
Lemma round_default_interval : JS.round (Spec.thresholdDay 5 40) = 5%Z.
Proof.
  apply round_eq. unfold Spec.thresholdDay. pose proof ln_default_ratio. lra.
Qed.

Lemma calculateNextReviewDays_default_strength : calculateNextReviewDays 5 None = 5%Z.
Proof.
  unfold calculateNextReviewDays.
  destruct (Rle_dec (40 / 100) 0); [lra |].
  fold (Spec.thresholdDay 5 40).
  rewrite round_default_interval. reflexivity.
Qed.

End Scheduler.

(** ** The score-to-retention mapping and the update rule *)

Section Update.
Import RetentionAlgorithm.

Lemma scoreToRetention_top_band (score : R) :
  90 <= score -> scoreToRetention score = 95.
Proof.
  intros Hs. unfold scoreToRetention.
  destruct (Rle_dec 90 score); [reflexivity | lra].
Qed.

(** C7. [scoreToRetention] is the fixed step mapping, each band including
    its lower bound: 95 from 90 up, 85 from 80, 75 from 70, 60 from 60, 45
    from 50, and [max(20, score * 0.4)] below 50; a score of 40 maps to 20. *)
Theorem scoreToRetention_bands (score : R) :
  (90 <= score -> scoreToRetention score = 95)
  /\ (80 <= score < 90 -> scoreToRetention score = 85)
  /\ (70 <= score < 80 -> scoreToRetention score = 75)
  /\ (60 <= score < 70 -> scoreToRetention score = 60)
  /\ (50 <= score < 60 -> scoreToRetention score = 45)
  /\ (score < 50 -> scoreToRetention score = Rmax 20 (score * (4 / 10)))
  /\ scoreToRetention 40 = 20.
Proof.
  unfold scoreToRetention.
  repeat split; intros;
    repeat match goal with
      | |- context [Rle_dec ?a ?b] => destruct (Rle_dec a b); try lra
      end.
  apply Rmax_left. lra.
Qed.

Lemma scoreToRetention_bands_witness :
  scoreToRetention 90 = 95 /\ scoreToRetention 80 = 85 /\ scoreToRetention 70 = 75
  /\ scoreToRetention 60 = 60 /\ scoreToRetention 50 = 45
  /\ scoreToRetention 30 = Rmax 20 (30 * (4 / 10)).
Proof.
  repeat split.
  - apply (scoreToRetention_bands 90); lra.
  - apply (scoreToRetention_bands 80); lra.
  - apply (scoreToRetention_bands 70); lra.
  - apply (scoreToRetention_bands 60); lra.
  - apply (scoreToRetention_bands 50); lra.
  - apply (scoreToRetention_bands 30); lra.
Defined.

(** C8. Called with an empty or an absent attempt history,
    [updateLearningStrength] does not use the strength formula: it returns
    the strength 5 and the retention [scoreToRetention score], for every
    score.  A first attempt with score 95 gives strength 5, retention 95,
    and the next review [max(1, round(-5 * ln(0.4))) = 5] days later. *)
Theorem updateLearningStrength_first_attempt (now : Z) (score : R) :
  updateLearningStrength now None score
  = StrengthUpdate.mk (JS.Fin 5) (scoreToRetention score) (Some true) None None
  /\ updateLearningStrength now (Some []) score
     = StrengthUpdate.mk (JS.Fin 5) (scoreToRetention score) (Some true) None None
  /\ StrengthUpdate.S (updateLearningStrength now (Some []) 95) = JS.Fin 5
  /\ StrengthUpdate.retention (updateLearningStrength now (Some []) 95) = 95
  /\ calculateNextReviewDays 5 None = Z.max 1 (JS.round (- 5 * ln (4 / 10)))
  /\ calculateNextReviewDays 5 None = 5%Z
  /\ calculateNextReviewDate now 5 None = (now + 5 * 86400000)%Z.
Proof.
  split; [reflexivity |]. split; [reflexivity |]. split; [reflexivity |].
  split.
  { simpl. apply scoreToRetention_top_band. lra. }
  split.
  { rewrite calculateNextReviewDays_default_strength.
    replace (- 5 * ln (4 / 10)) with (Spec.thresholdDay 5 40).
    - rewrite round_default_interval. reflexivity.
    - unfold Spec.thresholdDay. replace (4 / 10) with (40 / 100) by lra. lra. }
  split; [apply calculateNextReviewDays_default_strength |].
  unfold calculateNextReviewDate.
  rewrite calculateNextReviewDays_default_strength. reflexivity.
Qed.

End Update.

(** ** [Array.prototype.sort] *)

Section SortFacts.
Context {A : Type} (compareFn : A -> A -> JS.num).

Lemma insert_perm (x : A) (l : list A) :
  Permutation (x :: l) (JS.insert compareFn x l).
Proof.
  induction l as [| y l IH]; simpl; [reflexivity |].
  destruct (JS.positive (compareFn x y)); [| reflexivity].
  rewrite perm_swap. now apply perm_skip.
Qed.

Lemma sort_perm (l : list A) : Permutation l (JS.sort compareFn l).
Proof.
  induction l as [| x l IH]; simpl; [reflexivity |].
  rewrite <- insert_perm. now apply perm_skip.
Qed.

Lemma sort_In (x : A) (l : list A) : In x (JS.sort compareFn l) <-> In x l.
Proof.
  split; apply Permutation_in; [symmetry |]; apply sort_perm.
Qed.

(** What makes the comparator consistent on the elements that satisfy
    [dom]: its order is transitive, and of two elements it never puts each
    strictly after the other. *)
Variable dom : A -> Prop.
Hypothesis compare_trans :
  forall a b c, dom a -> dom b -> dom c ->
    JS.positive (compareFn a b) = false -> JS.positive (compareFn b c) = false ->
    JS.positive (compareFn a c) = false.
Hypothesis compare_total :
  forall a b, dom a -> dom b ->
    JS.positive (compareFn a b) = true -> JS.positive (compareFn b a) = false.

Lemma insert_sorted (x : A) (l : list A) :
  dom x -> Forall dom l ->
  StronglySorted (fun a b => JS.positive (compareFn a b) = false) l ->
  StronglySorted (fun a b => JS.positive (compareFn a b) = false)
    (JS.insert compareFn x l).
Proof.
  intros Hx Hdom Hsorted. induction Hsorted as [| y l Hsorted IH Hall]; simpl.
  - constructor; constructor.
  - inversion Hdom as [| y' l' Hy Hl]; subst.
    destruct (JS.positive (compareFn x y)) eqn:Hgt.
    + constructor; [now apply IH |].
      apply Forall_forall. intros z Hz.
      apply (Permutation_in _ (Permutation_sym (insert_perm x l))) in Hz.
      destruct Hz as [<- | Hz]; [now apply compare_total |].
      rewrite Forall_forall in Hall. now apply Hall.
    + constructor; [now constructor |].
      constructor; [assumption |].
      apply Forall_forall. intros z Hz.
      rewrite Forall_forall in Hall, Hl.
      apply compare_trans with y; auto.
Qed.

Lemma sort_sorted (l : list A) :
  Forall dom l ->
  StronglySorted (fun a b => JS.positive (compareFn a b) = false) (JS.sort compareFn l).
Proof.
  induction 1 as [| x l Hx Hl IH]; simpl; [constructor |].
  apply insert_sorted; [assumption | | assumption].
  apply Forall_forall. intros z Hz. apply (proj1 (sort_In z l)) in Hz.
  rewrite Forall_forall in Hl. now apply Hl.
Qed.

End SortFacts.

Section Stability.
Context {A : Type} (compareFn : A -> A -> JS.num) (p : A -> bool).

(** A class of elements that [x] never passes keeps its order. *)
Lemma filter_insert (x : A) (l : list A) :
  (forall y, In y l -> p x = true -> JS.positive (compareFn x y) = true -> p y = false) ->
  filter p (JS.insert compareFn x l) = filter p (x :: l).
Proof.
  induction l as [| y l IH]; intros Hpass; [reflexivity |].
  simpl JS.insert. destruct (JS.positive (compareFn x y)) eqn:Hgt; [| reflexivity].
  simpl. simpl in IH. rewrite IH by (intros z Hz; apply Hpass; now right).
  destruct (p x) eqn:Hpx; [| reflexivity].
  rewrite (Hpass y (or_introl eq_refl) eq_refl Hgt). reflexivity.
Qed.

Lemma filter_sort (l : list A) :
  (forall x y, In x l -> In y l -> p x = true ->
     JS.positive (compareFn x y) = true -> p y = false) ->
  filter p (JS.sort compareFn l) = filter p l.
Proof.
  induction l as [| x l IH]; intros Hpass; [reflexivity |].
  simpl JS.sort. rewrite filter_insert.
  - simpl. rewrite IH; [reflexivity |].
    intros a b Ha Hb. apply Hpass; now right.
  - intros y Hy. apply sort_In in Hy. apply Hpass; [now left | now right].
Qed.

End Stability.

Lemma StronglySorted_nth {A : Type} (rel : A -> A -> Prop) (l : list A) :
  StronglySorted rel l ->
  forall (i j : nat) (a b : A), (i < j)%nat ->
    nth_error l i = Some a -> nth_error l j = Some b -> rel a b.
Proof.
  induction 1 as [| x l Hsorted IH Hall]; intros i j a b Hij Ha Hb.
  - destruct i; discriminate.
  - destruct j as [| j]; [lia |].
    destruct i as [| i]; simpl in Ha, Hb.
    + injection Ha as <-. rewrite Forall_forall in Hall.
      apply Hall. eapply nth_error_In; eassumption.
    + apply (IH i j); [lia | assumption | assumption].
Qed.

Lemma StronglySorted_weaken_on {A : Type} (dom : A -> Prop) (r1 r2 : A -> A -> Prop)
    (l : list A) :
  (forall a b, dom a -> dom b -> r1 a b -> r2 a b) ->
  Forall dom l -> StronglySorted r1 l -> StronglySorted r2 l.
Proof.
  intros Himp Hdom Hsorted.
  induction Hsorted as [| x l Hs IH Hall]; constructor;
    inversion Hdom as [| x' l' Hx Hl]; subst; [now apply IH |].
  rewrite Forall_forall in *. auto.
Qed.

(** A sorted list whose elements fall in two classes, the comparator
    putting the second strictly after the first, is the first class
    followed by the second. *)
Lemma sorted_partition {A : Type} (compareFn : A -> A -> JS.num) (p : A -> bool)
    (l : list A) :
  StronglySorted (fun a b => JS.positive (compareFn a b) = false) l ->
  (forall x y, In x l -> In y l -> p x = false -> p y = true ->
     JS.positive (compareFn x y) = true) ->
  l = filter p l ++ filter (fun x => negb (p x)) l.
Proof.
  induction 1 as [| x l Hsorted IH Hall]; intros Hsep; [reflexivity |].
  assert (IH' : l = filter p l ++ filter (fun x => negb (p x)) l).
  { apply IH. intros a b Ha Hb. apply Hsep; now right. }
  simpl. destruct (p x) eqn:Hpx; simpl.
  - f_equal. exact IH'.
  - assert (Hnone : filter p l = []).
    { destruct (filter p l) as [| y rest] eqn:Hf; [reflexivity | exfalso].
      assert (Hy : In y (filter p l)) by (rewrite Hf; now left).
      apply filter_In in Hy as [Hy Hpy].
      rewrite Forall_forall in Hall. specialize (Hall y Hy).
      pose proof (Hsep x y (or_introl eq_refl) (or_intror Hy) Hpx Hpy). congruence. }
    rewrite Hnone in *. simpl in *. f_equal. exact IH'.
Qed.

(** ** The recommendation ranker *)

Section Ranker.
Import RetentionAlgorithm.

(** The rank table of the comparator is the one the specification names. *)
Lemma priorityOrder_rank (p : Priority) : priorityOrder p = Spec.priorityRank p.
Proof. destruct p; reflexivity. Qed.

Lemma leb_finite (x y : R) : JS.leb (JS.Fin x) (JS.Fin y) = true <-> x <= y.
Proof.
  simpl. destruct (Rle_dec x y); split; auto; discriminate.
Qed.

Lemma leb_finite_false (x y : R) : JS.leb (JS.Fin x) (JS.Fin y) = false <-> y < x.
Proof.
  simpl. destruct (Rle_dec x y); split; intros H; try discriminate; try lra; auto.
Qed.

Lemma positive_finite (x : R) : JS.positive (JS.Fin x) = false <-> x <= 0.
Proof.
  simpl. destruct (Rlt_dec 0 x); split; intros H; try discriminate; try lra; auto.
Qed.

(** *** The callback: one quiz *)

Lemma recommend_new (now : Z) (q : Quiz.t) :
  Quiz.lastAttempt q = None ->
  recommend now q
  = Recommendation.mk q high "New quiz - never attempted" (JS.Fin 0) true None.
Proof. intros Hq. unfold recommend. rewrite Hq. reflexivity. Qed.

Lemma raw_dated (now : Z) (q : Quiz.t) (a : Attempt.t) (next : Z) :
  Quiz.lastAttempt q = Some a -> Attempt.nextReviewDate a = Some next ->
  Spec.rawDaysUntilDue now q = JS.Fin (IZR (next - now) / JS.msPerDay).
Proof. intros Hq Ha. unfold Spec.rawDaysUntilDue. now rewrite Hq, Ha. Qed.

Lemma raw_undated (now : Z) (q : Quiz.t) (a : Attempt.t) :
  Quiz.lastAttempt q = Some a -> Attempt.nextReviewDate a = None ->
  Spec.rawDaysUntilDue now q = JS.NaN.
Proof. intros Hq Ha. unfold Spec.rawDaysUntilDue. now rewrite Hq, Ha. Qed.

Lemma recommend_overdue (now : Z) (q : Quiz.t) (a : Attempt.t) (d : R) :
  Quiz.lastAttempt q = Some a ->
  Spec.rawDaysUntilDue now q = JS.Fin d -> d <= 0 ->
  recommend now q
  = Recommendation.mk q high
      ("Overdue by " ++ JS.show (JS.round (JS.abs d)) ++ " days")%string
      (JS.Fin 0) true
      (Some (calculateRetention (IZR (now - Attempt.date a) / JS.msPerDay)
               (JS.or_default (Attempt.S a) 5))).
Proof.
  unfold Spec.rawDaysUntilDue, recommend. intros Hq. rewrite Hq.
  destruct (Attempt.nextReviewDate a) as [next |]; [| discriminate].
  intros Hraw Hd. injection Hraw as Hraw. rewrite Hraw.
  rewrite (proj2 (leb_finite d 0) Hd). simpl.
  rewrite Rmax_left by assumption. reflexivity.
Qed.

Lemma recommend_due_soon (now : Z) (q : Quiz.t) (a : Attempt.t) (d : R) :
  Quiz.lastAttempt q = Some a ->
  Spec.rawDaysUntilDue now q = JS.Fin d -> 0 < d <= 1 ->
  recommend now q
  = Recommendation.mk q medium "Due soon" (JS.Fin d) false
      (Some (calculateRetention (IZR (now - Attempt.date a) / JS.msPerDay)
               (JS.or_default (Attempt.S a) 5))).
Proof.
  unfold Spec.rawDaysUntilDue, recommend. intros Hq. rewrite Hq.
  destruct (Attempt.nextReviewDate a) as [next |]; [| discriminate].
  intros Hraw [Hlo Hhi]. injection Hraw as Hraw. rewrite Hraw.
  rewrite (proj2 (leb_finite_false d 0) Hlo), (proj2 (leb_finite d 1) Hhi). simpl.
  rewrite Rmax_right by lra. reflexivity.
Qed.

Lemma recommend_low_score (now : Z) (q : Quiz.t) (a : Attempt.t) (d : R) :
  Quiz.lastAttempt q = Some a ->
  Spec.rawDaysUntilDue now q = JS.Fin d -> 1 < d ->
  Attempt.score a < 70 ->
  recommend now q
  = Recommendation.mk q high "Low score - needs reinforcement" (JS.Fin d) false
      (Some (calculateRetention (IZR (now - Attempt.date a) / JS.msPerDay)
               (JS.or_default (Attempt.S a) 5))).
Proof.
  unfold Spec.rawDaysUntilDue, recommend. intros Hq. rewrite Hq.
  destruct (Attempt.nextReviewDate a) as [next |]; [| discriminate].
  intros Hraw Hd Hs. injection Hraw as Hraw. rewrite Hraw.
  rewrite (proj2 (leb_finite_false d 0)), (proj2 (leb_finite_false d 1)) by lra.
  destruct (Rlt_dec _ 70); [| contradiction]. simpl.
  rewrite Rmax_right by lra. reflexivity.
Qed.

Lemma recommend_upcoming (now : Z) (q : Quiz.t) (a : Attempt.t) (d : R) :
  Quiz.lastAttempt q = Some a ->
  Spec.rawDaysUntilDue now q = JS.Fin d -> 1 < d ->
  70 <= Attempt.score a ->
  recommend now q
  = Recommendation.mk q low "Review upcoming" (JS.Fin d) false
      (Some (calculateRetention (IZR (now - Attempt.date a) / JS.msPerDay)
               (JS.or_default (Attempt.S a) 5))).
Proof.
  unfold Spec.rawDaysUntilDue, recommend. intros Hq. rewrite Hq.
  destruct (Attempt.nextReviewDate a) as [next |]; [| discriminate].
  intros Hraw Hd Hs. injection Hraw as Hraw. rewrite Hraw.
  rewrite (proj2 (leb_finite_false d 0)), (proj2 (leb_finite_false d 1)) by lra.
  destruct (Rlt_dec _ 70); [lra |]. simpl.
  rewrite Rmax_right by lra. reflexivity.
Qed.

(** An attempt without next review date: the distance is not a number, the
    result is not due, and the score alone decides between high and low. *)
Lemma recommend_undated (now : Z) (q : Quiz.t) (a : Attempt.t) :
  Quiz.lastAttempt q = Some a -> Attempt.nextReviewDate a = None ->
  recommend now q
  = Recommendation.mk q
      (if Rlt_dec (Attempt.score a) 70 then high else low)
      (if Rlt_dec (Attempt.score a) 70 then "Low score - needs reinforcement"
       else "Review upcoming")
      JS.NaN false
      (Some (calculateRetention (IZR (now - Attempt.date a) / JS.msPerDay)
               (JS.or_default (Attempt.S a) 5))).
Proof.
  intros Hq Ha. unfold recommend. rewrite Hq, Ha. simpl.
  destruct (Rlt_dec _ 70); reflexivity.
Qed.

(** The shape of the distance: a real number, or not a number for an
    attempt without next review date. *)
Lemma raw_cases (now : Z) (q : Quiz.t) :
  (exists d, Spec.rawDaysUntilDue now q = JS.Fin d)
  \/ (Spec.rawDaysUntilDue now q = JS.NaN
      /\ exists a, Quiz.lastAttempt q = Some a /\ Attempt.nextReviewDate a = None).
Proof.
  unfold Spec.rawDaysUntilDue.
  destruct (Quiz.lastAttempt q) as [a |]; [| left; eauto].
  destruct (Attempt.nextReviewDate a) as [next |] eqn:Ha; [left; eauto |].
  right. eauto.
Qed.

(** The fields every result has, whichever branch produced it. *)
Lemma recommend_fields (now : Z) (q : Quiz.t) :
  Recommendation.quiz (recommend now q) = q
  /\ Recommendation.daysUntilDue (recommend now q)
     = JS.max (JS.Fin 0) (Spec.rawDaysUntilDue now q)
  /\ Recommendation.isDue (recommend now q)
     = JS.leb (Spec.rawDaysUntilDue now q) (JS.Fin 0)
  /\ (Recommendation.isDue (recommend now q) = true ->
      Recommendation.priority (recommend now q) = high
      /\ Recommendation.daysUntilDue (recommend now q) = JS.Fin 0).
Proof.
  destruct (Quiz.lastAttempt q) as [a |] eqn:Hq.
  - destruct (raw_cases now q) as [[d Hraw] | (Hraw & b & Hb & Hnone)].
    + rewrite Hraw.
      destruct (Rle_dec d 0) as [Hdue | Hnot].
      { rewrite (recommend_overdue now q a d Hq Hraw Hdue). simpl.
        destruct (Rle_dec d 0); [| contradiction].
        rewrite Rmax_left by assumption. auto. }
      apply Rnot_le_lt in Hnot.
      assert (Hleb : JS.leb (JS.Fin d) (JS.Fin 0) = false) by now apply leb_finite_false.
      assert (Hmax : JS.max (JS.Fin 0) (JS.Fin d) = JS.Fin d)
        by (simpl; now rewrite Rmax_right by lra).
      rewrite Hleb, Hmax.
      destruct (Rle_dec d 1) as [Hsoon | Hlater].
      { rewrite (recommend_due_soon now q a d Hq Hraw (conj Hnot Hsoon)). simpl.
        repeat split; auto; discriminate. }
      apply Rnot_le_lt in Hlater.
      destruct (Rlt_dec (Attempt.score a) 70) as [Hlow | Hgood].
      * rewrite (recommend_low_score now q a d Hq Hraw Hlater Hlow). simpl.
        repeat split; auto; discriminate.
      * apply Rnot_lt_le in Hgood.
        rewrite (recommend_upcoming now q a d Hq Hraw Hlater Hgood). simpl.
        repeat split; auto; discriminate.
    + rewrite Hq in Hb. injection Hb as <-.
      rewrite (recommend_undated now q a Hq Hnone), Hraw. simpl.
      repeat split; auto; discriminate.
  - rewrite (recommend_new now q Hq).
    unfold Spec.rawDaysUntilDue. rewrite Hq. simpl.
    destruct (Rle_dec 0 0); [| lra]. rewrite Rmax_left by lra. auto.
Qed.

(** With a next review date the returned distance is a number that is not
    negative, and a result that is not due lies in the future. *)
Lemma recommend_dated (now : Z) (q : Quiz.t) :
  Spec.dated q ->
  exists d,
    Spec.rawDaysUntilDue now q = JS.Fin d
    /\ Recommendation.daysUntilDue (recommend now q) = JS.Fin (Rmax 0 d)
    /\ (Recommendation.isDue (recommend now q) = true -> d <= 0)
    /\ (Recommendation.isDue (recommend now q) = false ->
        0 < d /\ Quiz.lastAttempt q <> None
        /\ (Recommendation.priority (recommend now q) = high -> 1 < d)).
Proof.
  intros Hdated.
  destruct (raw_cases now q) as [[d Hraw] | (_ & a & Ha & Hnone)];
    [| exfalso; now apply (Hdated a Ha)].
  exists d. split; [exact Hraw |].
  destruct (recommend_fields now q) as (_ & Hdays & Hdue & _).
  rewrite Hraw in Hdays, Hdue. split; [exact Hdays |].
  rewrite Hdue. split; [apply leb_finite |].
  intros Hnot. apply leb_finite_false in Hnot.
  split; [exact Hnot |].
  destruct (Quiz.lastAttempt q) as [a |] eqn:Hq.
  - split; [discriminate |].
    destruct (Rle_dec d 1) as [Hsoon | Hlater]; [| intros _; lra].
    rewrite (recommend_due_soon now q a d Hq Hraw (conj Hnot Hsoon)). discriminate.
  - exfalso. unfold Spec.rawDaysUntilDue in Hraw. rewrite Hq in Hraw.
    injection Hraw as <-. lra.
Qed.

(** *** The comparator *)

Lemma compareFn_finite (a b : Recommendation.t) (x y : R) :
  Recommendation.daysUntilDue a = JS.Fin x ->
  Recommendation.daysUntilDue b = JS.Fin y ->
  (JS.positive (compareFn a b) = false <-> Spec.returnedKeyLe a b).
Proof.
  intros Ha Hb.
  unfold compareFn, Spec.returnedKeyLe, Spec.keyLe. cbv zeta.
  rewrite (priorityOrder_rank (Recommendation.priority a)),
    (priorityOrder_rank (Recommendation.priority b)), Ha, Hb.
  set (ra := Spec.priorityRank (Recommendation.priority a)).
  set (rb := Spec.priorityRank (Recommendation.priority b)).
  destruct (Z.eqb_spec (ra - rb) 0) as [Heq | Hne]; cbn [negb JS.sub]; cbv iota.
  - rewrite positive_finite, leb_finite. split.
    + intros Hd. right. split; [lia | lra].
    + intros [Hlt | [_ Hd]]; [lia | lra].
  - rewrite positive_finite. split.
    + intros Hd. left. apply le_IZR in Hd. lia.
    + intros [Hlt | [Heq _]]; [| lia]. apply IZR_le. lia.
Qed.

Lemma keyLe_trans (a b c : Recommendation.t) (x y z : R) :
  Recommendation.daysUntilDue a = JS.Fin x ->
  Recommendation.daysUntilDue b = JS.Fin y ->
  Recommendation.daysUntilDue c = JS.Fin z ->
  Spec.returnedKeyLe a b -> Spec.returnedKeyLe b c -> Spec.returnedKeyLe a c.
Proof.
  unfold Spec.returnedKeyLe, Spec.keyLe. intros -> -> ->.
  rewrite !leb_finite.
  intros [H1 | [H1 D1]] [H2 | [H2 D2]]; [left; lia | left; lia | left; lia |].
  right. split; [lia | lra].
Qed.

Lemma keyLe_total (a b : Recommendation.t) (x y : R) :
  Recommendation.daysUntilDue a = JS.Fin x ->
  Recommendation.daysUntilDue b = JS.Fin y ->
  ~ Spec.returnedKeyLe a b -> Spec.returnedKeyLe b a.
Proof.
  unfold Spec.returnedKeyLe, Spec.keyLe. intros -> ->.
  rewrite !leb_finite. intros Hn.
  destruct (Z.lt_trichotomy
              (Spec.priorityRank (Recommendation.priority b))
              (Spec.priorityRank (Recommendation.priority a))) as [Hlt | [Heq | Hlt]].
  - now left.
  - right. split; [assumption |].
    destruct (Rle_dec y x); [assumption |].
    exfalso. apply Hn. right. split; [auto | lra].
  - exfalso. apply Hn. now left.
Qed.

Lemma compareFn_same_key (a b : Recommendation.t) :
  Spec.priorityRank (Recommendation.priority a)
  = Spec.priorityRank (Recommendation.priority b) ->
  JS.same (Recommendation.daysUntilDue a) (Recommendation.daysUntilDue b) = true ->
  JS.positive (compareFn a b) = false.
Proof.
  intros Hrank Hsame. unfold compareFn. cbv zeta.
  rewrite (priorityOrder_rank (Recommendation.priority a)),
    (priorityOrder_rank (Recommendation.priority b)), Hrank.
  rewrite Z.sub_diag. cbn [Z.eqb negb].
  destruct (Recommendation.daysUntilDue a) as [x | | |],
           (Recommendation.daysUntilDue b) as [y | | |];
    try discriminate; try reflexivity.
  simpl in Hsame. destruct (Req_dec_T x y) as [-> |]; [| discriminate].
  apply positive_finite. simpl. lra.
Qed.

Lemma compareFn_tied (r0 a b : Recommendation.t) :
  Spec.tied r0 a = true -> Spec.tied r0 b = true ->
  JS.positive (compareFn a b) = false.
Proof.
  unfold Spec.tied. intros Ha Hb.
  apply andb_true_iff in Ha as [Hpa Hda]. apply andb_true_iff in Hb as [Hpb Hdb].
  apply Z.eqb_eq in Hpa, Hpb.
  apply compareFn_same_key; [congruence |].
  destruct (Recommendation.daysUntilDue r0) as [z | | |],
           (Recommendation.daysUntilDue a) as [x | | |],
           (Recommendation.daysUntilDue b) as [y | | |];
    try discriminate; try reflexivity.
  simpl in *. destruct (Req_dec_T z x) as [<- |]; [| discriminate].
  destruct (Req_dec_T z y) as [<- |]; [| discriminate].
  destruct (Req_dec_T z z); [reflexivity | contradiction].
Qed.

(** *** The sorted array *)

Lemma getQuizRecommendations_In (now : Z) (quizzes : list Quiz.t) (r : Recommendation.t) :
  In r (getQuizRecommendations now quizzes) <->
  exists q, In q quizzes /\ r = recommend now q.
Proof.
  unfold getQuizRecommendations. rewrite sort_In, in_map_iff.
  split; intros (q & H1 & H2); exists q; auto.
Qed.

Lemma dated_results_finite (now : Z) (quizzes : list Quiz.t) :
  Forall Spec.dated quizzes ->
  Forall (fun r => exists x, Recommendation.daysUntilDue r = JS.Fin x)
    (map (recommend now) quizzes).
Proof.
  intros Hdated. apply Forall_map. eapply Forall_impl; [| exact Hdated].
  intros q Hq. destruct (recommend_dated now q Hq) as (d & _ & Hd & _). eauto.
Qed.

Lemma getQuizRecommendations_sorted (now : Z) (quizzes : list Quiz.t) :
  Forall Spec.dated quizzes ->
  StronglySorted (fun a b => JS.positive (compareFn a b) = false)
    (getQuizRecommendations now quizzes).
Proof.
  intros Hdated.
  apply (sort_sorted compareFn
           (fun r => exists x, Recommendation.daysUntilDue r = JS.Fin x)).
  - intros a b c [x Ha] [y Hb] [z Hc].
    rewrite (compareFn_finite a b x y Ha Hb), (compareFn_finite b c y z Hb Hc),
      (compareFn_finite a c x z Ha Hc).
    now apply (keyLe_trans a b c x y z).
  - intros a b [x Ha] [y Hb] Hgt.
    apply (compareFn_finite b a y x Hb Ha).
    apply (keyLe_total a b x y Ha Hb).
    rewrite <- (compareFn_finite a b x y Ha Hb). congruence.
  - now apply dated_results_finite.
Qed.

(** Every due result carries the key (high, 0). *)
Lemma due_key (now : Z) (q : Quiz.t) :
  Recommendation.isDue (recommend now q) = true ->
  Recommendation.priority (recommend now q) = high
  /\ Recommendation.daysUntilDue (recommend now q) = JS.Fin 0.
Proof.
  intros Hdue. now destruct (recommend_fields now q) as (_ & _ & _ & Hyes); auto.
Qed.

Lemma compareFn_due (now : Z) (q1 q2 : Quiz.t) :
  Recommendation.isDue (recommend now q1) = true ->
  Recommendation.isDue (recommend now q2) = true ->
  JS.positive (compareFn (recommend now q1) (recommend now q2)) = false.
Proof.
  intros H1 H2. apply due_key in H1 as [P1 D1]. apply due_key in H2 as [P2 D2].
  apply compareFn_same_key; [now rewrite P1, P2 |].
  rewrite D1, D2. simpl. destruct (Req_dec_T 0 0); [reflexivity | contradiction].
Qed.

(** The due results keep their input order, whatever the other results
    are. *)
Lemma due_results_stable (now : Z) (quizzes : list Quiz.t) :
  filter Recommendation.isDue (getQuizRecommendations now quizzes)
  = filter Recommendation.isDue (map (recommend now) quizzes).
Proof.
  apply filter_sort. intros x y Hx Hy Hdx Hgt.
  apply in_map_iff in Hx as (qx & <- & _). apply in_map_iff in Hy as (qy & <- & _).
  destruct (Recommendation.isDue (recommend now qy)) eqn:Hdy; [| reflexivity].
  rewrite (compareFn_due now qx qy Hdx Hdy) in Hgt. discriminate.
Qed.

Lemma days_of_ms (k : Z) : IZR (k * 86400000) / JS.msPerDay = IZR k.
Proof. rewrite mult_IZR. unfold JS.msPerDay. field. Qed.

Lemma raw_days_overdueByOne :
  Spec.rawDaysUntilDue Examples.now Examples.overdueByOne = JS.Fin (-1).
Proof.
  unfold Spec.rawDaysUntilDue.
  cbn [Examples.overdueByOne Quiz.lastAttempt Attempt.nextReviewDate].
  change (999 * Examples.day - Examples.now)%Z with (-1 * 86400000)%Z.
  now rewrite days_of_ms.
Qed.

Lemma raw_days_overdueByFive :
  Spec.rawDaysUntilDue Examples.now Examples.overdueByFive = JS.Fin (-5).
Proof.
  unfold Spec.rawDaysUntilDue.
  cbn [Examples.overdueByFive Quiz.lastAttempt Attempt.nextReviewDate].
  change (995 * Examples.day - Examples.now)%Z with (-5 * 86400000)%Z.
  now rewrite days_of_ms.
Qed.

Lemma raw_days_lowScoreLater :
  Spec.rawDaysUntilDue Examples.now Examples.lowScoreLater = JS.Fin 2.
Proof.
  unfold Spec.rawDaysUntilDue.
  cbn [Examples.lowScoreLater Quiz.lastAttempt Attempt.nextReviewDate].
  change (1002 * Examples.day - Examples.now)%Z with (2 * 86400000)%Z.
  now rewrite days_of_ms.
Qed.

Lemma overdueByOne_result :
  recommend Examples.now Examples.overdueByOne
  = Recommendation.mk Examples.overdueByOne high
      ("Overdue by " ++ JS.show (JS.round (JS.abs (-1))) ++ " days")%string
      (JS.Fin 0) true
      (Some (calculateRetention (IZR (Examples.now - 990 * Examples.day) / JS.msPerDay)
               (JS.or_default (Some 5) 5))).
Proof.
  apply (recommend_overdue Examples.now Examples.overdueByOne
           (Attempt.mk (990 * Examples.day) 80 (Some 5) (Some (999 * Examples.day)%Z))
           (-1));
    [reflexivity | apply raw_days_overdueByOne | lra].
Qed.

Lemma overdueByFive_result :
  recommend Examples.now Examples.overdueByFive
  = Recommendation.mk Examples.overdueByFive high
      ("Overdue by " ++ JS.show (JS.round (JS.abs (-5))) ++ " days")%string
      (JS.Fin 0) true
      (Some (calculateRetention (IZR (Examples.now - 985 * Examples.day) / JS.msPerDay)
               (JS.or_default (Some 5) 5))).
Proof.
  apply (recommend_overdue Examples.now Examples.overdueByFive
           (Attempt.mk (985 * Examples.day) 80 (Some 5) (Some (995 * Examples.day)%Z))
           (-5));
    [reflexivity | apply raw_days_overdueByFive | lra].
Qed.

Lemma lowScoreLater_result :
  recommend Examples.now Examples.lowScoreLater
  = Recommendation.mk Examples.lowScoreLater high "Low score - needs reinforcement"
      (JS.Fin 2) false
      (Some (calculateRetention (IZR (Examples.now - 997 * Examples.day) / JS.msPerDay)
               (JS.or_default (Some 5) 5))).
Proof.
  apply (recommend_low_score Examples.now Examples.lowScoreLater
           (Attempt.mk (997 * Examples.day) 55 (Some 5) (Some (1002 * Examples.day)%Z))
           2);
    [reflexivity | apply raw_days_lowScoreLater | lra | simpl; lra].
Qed.

Lemma overdue_pair_output :
  getQuizRecommendations Examples.now [Examples.overdueByOne; Examples.overdueByFive]
  = [recommend Examples.now Examples.overdueByOne;
     recommend Examples.now Examples.overdueByFive].
Proof.
  unfold getQuizRecommendations. cbn [map JS.sort JS.insert].
  rewrite compareFn_due; [reflexivity | |].
  - now rewrite overdueByOne_result.
  - now rewrite overdueByFive_result.
Qed.

Lemma overdue_pair_dated :
  Forall Spec.dated [Examples.overdueByOne; Examples.overdueByFive].
Proof.
  repeat constructor; intros a Ha; injection Ha as <-; discriminate.
Qed.

(** C1, as the specification words it, fails.  Of two overdue quizzes, the
    one overdue by one day given first and the one overdue by five days
    second, the array returned keeps the input order, both results carry
    [daysUntilDue = 0], and the array is not ordered by the raw signed
    distance (-1 and -5). *)
Lemma raw_signed_order_counterexample :
  map (fun r => Quiz.quizId (Recommendation.quiz r))
    (getQuizRecommendations Examples.now [Examples.overdueByOne; Examples.overdueByFive])
  = [1; 2]%Z
  /\ map Recommendation.daysUntilDue
       (getQuizRecommendations Examples.now [Examples.overdueByOne; Examples.overdueByFive])
     = [JS.Fin 0; JS.Fin 0]
  /\ map (fun r => Spec.rawDaysUntilDue Examples.now (Recommendation.quiz r))
       (getQuizRecommendations Examples.now [Examples.overdueByOne; Examples.overdueByFive])
     = [JS.Fin (-1); JS.Fin (-5)]
  /\ ~ StronglySorted (Spec.rawKeyLe Examples.now)
         (getQuizRecommendations Examples.now [Examples.overdueByOne; Examples.overdueByFive]).
Proof.
  rewrite overdue_pair_output, overdueByOne_result, overdueByFive_result.
  cbn [map Recommendation.quiz Recommendation.daysUntilDue Quiz.quizId
       Examples.overdueByOne Examples.overdueByFive].
  fold Examples.overdueByOne. fold Examples.overdueByFive.
  rewrite raw_days_overdueByOne, raw_days_overdueByFive.
  split; [reflexivity |]. split; [reflexivity |]. split; [reflexivity |].
  intros Hsorted. inversion Hsorted as [| x l _ Hall]; subst.
  inversion Hall as [| y l' Hkey _]; subst.
  unfold Spec.rawKeyLe, Spec.keyLe in Hkey.
  cbn [Recommendation.quiz Recommendation.priority Spec.priorityRank] in Hkey.
  rewrite raw_days_overdueByOne, raw_days_overdueByFive, leb_finite in Hkey.
  destruct Hkey as [Hlt | [_ Hle]]; [lia | lra].
Qed.

(** C1, amended.  When the last attempt of every attempted quiz carries a
    next review date, the array returned by [getQuizRecommendations] holds
    the results of the input quizzes, ordered first by priority rank
    (high = 0, medium = 1, low = 2) and then by the ascending returned
    [daysUntilDue], which is the signed distance clamped at 0 and so never
    negative; results with equal keys keep their input order, and in
    particular all due results (overdue or never attempted) keep their
    input order. *)
Theorem getQuizRecommendations_order (now : Z) (quizzes : list Quiz.t) :
  Forall Spec.dated quizzes ->
  Permutation (map (recommend now) quizzes) (getQuizRecommendations now quizzes)
  /\ StronglySorted Spec.returnedKeyLe (getQuizRecommendations now quizzes)
  /\ Forall (fun r =>
               Recommendation.daysUntilDue r
               = JS.max (JS.Fin 0) (Spec.rawDaysUntilDue now (Recommendation.quiz r))
               /\ JS.leb (JS.Fin 0) (Recommendation.daysUntilDue r) = true)
       (getQuizRecommendations now quizzes)
  /\ (forall r0,
        filter (Spec.tied r0) (getQuizRecommendations now quizzes)
        = filter (Spec.tied r0) (map (recommend now) quizzes))
  /\ filter Recommendation.isDue (getQuizRecommendations now quizzes)
     = filter Recommendation.isDue (map (recommend now) quizzes).
Proof.
  intros Hdated.
  assert (Hfinite : Forall (fun r => exists x, Recommendation.daysUntilDue r = JS.Fin x)
                      (getQuizRecommendations now quizzes)).
  { apply Forall_forall. intros r Hr.
    apply getQuizRecommendations_In in Hr as (q & Hq & ->).
    rewrite Forall_forall in Hdated.
    destruct (recommend_dated now q (Hdated q Hq)) as (d & _ & Hd & _). eauto. }
  split; [apply sort_perm |].
  split.
  { eapply StronglySorted_weaken_on;
      [| exact Hfinite | now apply getQuizRecommendations_sorted].
    intros a b [x Ha] [y Hb]. now apply compareFn_finite with x y. }
  split.
  { apply Forall_forall. intros r Hr.
    apply getQuizRecommendations_In in Hr as (q & Hq & ->).
    rewrite Forall_forall in Hdated.
    destruct (recommend_dated now q (Hdated q Hq)) as (d & Hraw & Hd & _).
    destruct (recommend_fields now q) as (Hquiz & Hdays & _).
    rewrite Hquiz. split; [exact Hdays |].
    rewrite Hd. apply leb_finite, Rmax_l. }
  split.
  - intros r0. apply filter_sort. intros x y _ _ Hx Hgt.
    destruct (Spec.tied r0 y) eqn:Hy; [| reflexivity].
    rewrite (compareFn_tied r0 x y Hx Hy) in Hgt. discriminate.
  - apply due_results_stable.
Qed.

Lemma getQuizRecommendations_order_witness :
  StronglySorted Spec.returnedKeyLe
    (getQuizRecommendations Examples.now [Examples.overdueByOne; Examples.overdueByFive])
  /\ filter Recommendation.isDue
       (getQuizRecommendations Examples.now [Examples.overdueByOne; Examples.overdueByFive])
     = filter Recommendation.isDue
         (map (recommend Examples.now) [Examples.overdueByOne; Examples.overdueByFive]).
Proof.
  destruct (getQuizRecommendations_order Examples.now
              [Examples.overdueByOne; Examples.overdueByFive] overdue_pair_dated)
    as (_ & Hsorted & _ & _ & Hdue).
  split; [exact Hsorted | exact Hdue].
Defined.

Lemma undated_result :
  recommend Examples.now Examples.undated
  = Recommendation.mk Examples.undated low "Review upcoming" JS.NaN false
      (Some (calculateRetention (IZR (Examples.now - 997 * Examples.day) / JS.msPerDay)
               (JS.or_default (Some 5) 5))).
Proof.
  rewrite (recommend_undated Examples.now Examples.undated _ eq_refl eq_refl).
  cbn [Attempt.score Attempt.date Attempt.S].
  destruct (Rlt_dec 80 70); [lra | reflexivity].
Qed.

Lemma lowScoreUndated_result :
  recommend Examples.now Examples.lowScoreUndated
  = Recommendation.mk Examples.lowScoreUndated high "Low score - needs reinforcement"
      JS.NaN false
      (Some (calculateRetention (IZR (Examples.now - 997 * Examples.day) / JS.msPerDay)
               (JS.or_default (Some 5) 5))).
Proof.
  rewrite (recommend_undated Examples.now Examples.lowScoreUndated _ eq_refl eq_refl).
  cbn [Attempt.score Attempt.date Attempt.S].
  destruct (Rlt_dec 55 70); [reflexivity | lra].
Qed.

(** C2 fails on the code for an attempt that carries no next review date,
    as every attempt the quiz controller stores: the distance is not a
    number, [Math.max(0, NaN)] is not a number either, and the result
    returned has a [daysUntilDue] that is not [>= 0], with [isDue] false. *)
Theorem clamp_misses_undated_attempt :
  getQuizRecommendations Examples.now [Examples.undated]
  = [Recommendation.mk Examples.undated low "Review upcoming" JS.NaN false
       (Some (calculateRetention
                (IZR (Examples.now - 997 * Examples.day) / JS.msPerDay)
                (JS.or_default (Some 5) 5)))]
  /\ Forall (fun r => JS.leb (JS.Fin 0) (Recommendation.daysUntilDue r) = false)
       (getQuizRecommendations Examples.now [Examples.undated]).
Proof.
  assert (Hout : getQuizRecommendations Examples.now [Examples.undated]
                 = [recommend Examples.now Examples.undated]) by reflexivity.
  rewrite Hout, undated_result. split; [reflexivity |].
  repeat constructor.
Qed.

(** C3 fails on the code for an attempt that carries no next review date:
    given first, an attempted quiz with score 55 and no next review date
    (priority high, not due, distance not a number) stays before the quiz
    never attempted, because the comparator answers [NaN], which the sort
    takes as a tie. *)
Theorem undated_attempt_before_never_attempted :
  getQuizRecommendations Examples.now [Examples.lowScoreUndated; Examples.neverAttempted]
  = [recommend Examples.now Examples.lowScoreUndated;
     recommend Examples.now Examples.neverAttempted]
  /\ Quiz.lastAttempt Examples.neverAttempted = None
  /\ Recommendation.isDue (recommend Examples.now Examples.neverAttempted) = true
  /\ Quiz.lastAttempt Examples.lowScoreUndated <> None
  /\ Recommendation.isDue (recommend Examples.now Examples.lowScoreUndated) = false
  /\ compareFn (recommend Examples.now Examples.lowScoreUndated)
       (recommend Examples.now Examples.neverAttempted) = JS.NaN
  /\ compareFn (recommend Examples.now Examples.neverAttempted)
       (recommend Examples.now Examples.lowScoreUndated) = JS.NaN.
Proof.
  assert (Hnew : recommend Examples.now Examples.neverAttempted
                 = Recommendation.mk Examples.neverAttempted high
                     "New quiz - never attempted" (JS.Fin 0) true None)
    by reflexivity.
  assert (Hcmp : compareFn (recommend Examples.now Examples.lowScoreUndated)
                   (recommend Examples.now Examples.neverAttempted) = JS.NaN)
    by (rewrite lowScoreUndated_result, Hnew; reflexivity).
  split.
  { unfold getQuizRecommendations. cbn [map JS.sort JS.insert].
    rewrite Hcmp. reflexivity. }
  split; [reflexivity |]. split; [reflexivity |].
  split; [discriminate |].
  split; [now rewrite lowScoreUndated_result |].
  split; [exact Hcmp |].
  rewrite lowScoreUndated_result, Hnew. reflexivity.
Qed.

End Ranker.

(** ** Round trip of the scheduler through the decay model *)

Section RoundTrip.
Import RetentionAlgorithm.

Lemma thresholdDay_pos (S : R) : 0 < S -> 0 < Spec.thresholdDay S 40.
Proof.
  intros HS. unfold Spec.thresholdDay. pose proof ln_default_ratio. nra.
Qed.

(** At the exact threshold day the decay model gives 40. *)
Lemma retention_at_thresholdDay (S : R) :
  0 < S -> calculateRetention (Spec.thresholdDay S 40) S = 40.
Proof.
  intros HS.
  rewrite calculateRetention_after_review
    by (try assumption; left; now apply thresholdDay_pos).
  unfold Spec.thresholdDay.
  replace (- (- S * ln (40 / 100) / S)) with (ln (40 / 100)) by (field; lra).
  rewrite exp_ln by lra. lra.
Qed.

(** The day count misses the exact threshold day by less than half a day
    downwards and by less than a day upwards. *)
Lemma day_count_error (S : R) :
  0 < S ->
  - / 2 < IZR (calculateNextReviewDays S (Some 40)) - Spec.thresholdDay S 40 < 1.
Proof.
  intros HS. rewrite calculateNextReviewDays_unfold by lra.
  pose proof (thresholdDay_pos S HS) as Hpos.
  pose proof (round_bounds (Spec.thresholdDay S 40)) as [Hlo Hhi].
  destruct (Z.max_spec 1 (JS.round (Spec.thresholdDay S 40))) as [[Hlt ->] | [Hge ->]].
  - apply IZR_lt in Hlt. lra.
  - apply IZR_le in Hge. lra.
Qed.

Lemma retention_at_day_count (S : R) :
  0 < S ->
  calculateRetention (IZR (calculateNextReviewDays S (Some 40))) S
  = 40 * exp (- ((IZR (calculateNextReviewDays S (Some 40)) - Spec.thresholdDay S 40) / S)).
Proof.
  intros HS.
  pose proof (calculateNextReviewDays_at_least_one S (Some 40)) as Hone.
  apply IZR_le in Hone.
  rewrite calculateRetention_after_review by lra.
  rewrite <- (retention_at_thresholdDay S HS) at 2.
  rewrite (calculateRetention_after_review (Spec.thresholdDay S 40))
    by (try assumption; left; now apply thresholdDay_pos).
  rewrite Rmult_assoc, <- exp_plus. do 2 f_equal. field. lra.
Qed.

(** C9, as the specification words it, fails for a strength that is not
    positive: at [S = 0] the retention on the scheduled day is 0, and no
    instant at all has retention 40. *)
Lemma round_trip_counterexample :
  calculateRetention (IZR (calculateNextReviewDays 0 (Some 40))) 0 = 0
  /\ ~ Spec.roundTrip 0.
Proof.
  split; [apply calculateRetention_collapsed; lra |].
  intros (t & H40 & _). rewrite calculateRetention_collapsed in H40; lra.
Qed.

(** C9, amended.  For every strength [S > 0], the scheduled day count is the
    exact threshold day (where the decay model gives 40) rounded to the
    nearest integer and floored at 1; it lies less than half a day before
    and less than one day after that instant, so the retention on the
    scheduled day is [40 * e^(-delta/S)] for that offset [delta], strictly
    between [40 * e^(-1/S)] and [40 * e^(1/(2S))], and at least
    [40 * e^(-1/(2S))] when the floor at 1 does not apply. *)
Theorem round_trip_positive_strength (S : R) :
  0 < S ->
  Spec.roundTrip S
  /\ - / 2 < IZR (calculateNextReviewDays S (Some 40)) - Spec.thresholdDay S 40 < 1
  /\ calculateRetention (IZR (calculateNextReviewDays S (Some 40))) S
     = 40 * exp (- ((IZR (calculateNextReviewDays S (Some 40))
                     - Spec.thresholdDay S 40) / S))
  /\ 40 * exp (- (1 / S))
     < calculateRetention (IZR (calculateNextReviewDays S (Some 40))) S
     < 40 * exp (1 / (2 * S))
  /\ (/ 2 <= Spec.thresholdDay S 40 ->
      40 * exp (- (1 / (2 * S)))
      <= calculateRetention (IZR (calculateNextReviewDays S (Some 40))) S).
Proof.
  intros HS.
  pose proof (day_count_error S HS) as [Hlo Hhi].
  pose proof (retention_at_day_count S HS) as Hret.
  split.
  { exists (Spec.thresholdDay S 40). split.
    - now apply retention_at_thresholdDay.
    - apply calculateNextReviewDays_unfold. lra. }
  split; [split; assumption |].
  split; [exact Hret |].
  set (delta := IZR (calculateNextReviewDays S (Some 40)) - Spec.thresholdDay S 40) in *.
  assert (Hinv : 0 < / S) by now apply Rinv_0_lt_compat.
  split; [split |].
  - rewrite Hret. apply Rmult_lt_compat_l; [lra |].
    apply exp_increasing. unfold Rdiv. nra.
  - rewrite Hret. apply Rmult_lt_compat_l; [lra |].
    apply exp_increasing. unfold Rdiv. rewrite Rinv_mult. nra.
  - intros Hhalf. rewrite Hret. apply Rmult_le_compat_l; [lra |].
    apply exp_le_mono.
    assert (Hd : delta <= / 2).
    { unfold delta. rewrite calculateNextReviewDays_unfold by lra.
      pose proof (round_bounds (Spec.thresholdDay S 40)) as [_ Hup].
      assert (Hge : (1 <= JS.round (Spec.thresholdDay S 40))%Z).
      { assert (Hr : JS.round (/ 2) = 1%Z) by (apply round_eq; lra).
        rewrite <- Hr. now apply round_mono. }
      rewrite Z.max_r by assumption. lra. }
    unfold Rdiv. rewrite Rinv_mult. nra.
Qed.

Lemma round_trip_positive_strength_witness :
  Spec.roundTrip 5
  /\ 40 * exp (- (1 / 5))
     < calculateRetention (IZR (calculateNextReviewDays 5 (Some 40))) 5
     < 40 * exp (1 / (2 * 5)).
Proof.
  destruct (round_trip_positive_strength 5) as (Hrt & _ & _ & Hb & _); [lra |].
  split; [exact Hrt | exact Hb].
Defined.

End RoundTrip.

(** ** Lesson statistics *)

Section LessonTrend.
Import RetentionAlgorithm.

Lemma slice_last_three {A : Type} (l : list A) :
  JS.slice l (-3) None = Spec.lastN 3 l.
Proof.
  unfold JS.slice, JS.clampIndex, Spec.lastN.
  change (-3 <? 0)%Z with true. cbv iota.
  replace (Z.to_nat (Z.max (Z.of_nat (length l) + -3) 0)) with (length l - 3)%nat by lia.
  apply firstn_all2. rewrite length_skipn. lia.
Qed.

Lemma slice_all_but_last_three {A : Type} (l : list A) :
  JS.slice l 0 (Some (-3)%Z) = Spec.allButLastN 3 l.
Proof.
  unfold JS.slice, JS.clampIndex, Spec.allButLastN.
  change (-3 <? 0)%Z with true. change (0 <? 0)%Z with false. cbv iota.
  replace (Z.to_nat (Z.min 0 (Z.of_nat (length l)))) with 0%nat by lia.
  simpl skipn. f_equal. lia.
Qed.

Lemma lastN_length {A : Type} (n : nat) (l : list A) :
  length (Spec.lastN n l) = Nat.min n (length l).
Proof. unfold Spec.lastN. rewrite length_skipn. lia. Qed.

Lemma allButLastN_length {A : Type} (n : nat) (l : list A) :
  length (Spec.allButLastN n l) = (length l - n)%nat.
Proof. unfold Spec.allButLastN. rewrite length_firstn. lia. Qed.

Lemma recent_divisor (n : nat) :
  (1 <= n)%nat -> IZR (Z.min 3 (Z.of_nat n)) = INR (Nat.max 1 (Nat.min 3 n)).
Proof.
  intros Hn. rewrite INR_IZR_INZ. f_equal. lia.
Qed.

Lemma older_divisor (n : nat) :
  IZR (Z.max 1 (Z.of_nat n - 3)) = INR (Nat.max 1 (n - 3)).
Proof.
  rewrite INR_IZR_INZ. f_equal. lia.
Qed.

(** From two attempts on, the trend of the code is the three-way comparison
    on the means that count no scores as 0. *)
Lemma lesson_trend_agrees (now : Z) (attempts : list Attempt.t) :
  (2 <= length attempts)%nat ->
  LessonStats.trend (calculateLessonStats now (Lesson.mk (Some attempts)))
  = Aux.trendOrZero (map Attempt.score attempts).
Proof.
  intros Hlen. destruct attempts as [| a rest]; [simpl in Hlen; lia |].
  unfold calculateLessonStats. cbn [Lesson.quizAttempts LessonStats.trend].
  destruct (Nat.leb_spec 2 (length (a :: rest))) as [_ | Hlt]; [| lia].
  set (scores := map Attempt.score (a :: rest)).
  assert (Hs : (2 <= length scores)%nat) by (unfold scores; now rewrite length_map).
  unfold Aux.trendOrZero, Aux.meanOrZero.
  rewrite slice_last_three, slice_all_but_last_three.
  rewrite lastN_length, allButLastN_length.
  rewrite <- recent_divisor by lia. rewrite <- older_divisor.
  reflexivity.
Qed.

Lemma mean_nonempty (l : list R) :
  l <> [] -> Aux.meanOrZero l = JS.sum l / INR (length l).
Proof.
  intros Hl. unfold Aux.meanOrZero. destruct l as [| x l]; [contradiction |].
  simpl length. rewrite Nat.max_r by lia. reflexivity.
Qed.

Lemma mean_empty : Aux.meanOrZero [] = 0.
Proof. unfold Aux.meanOrZero, JS.sum. simpl. lra. Qed.

Lemma sum_shift (l : list R) (acc : R) : fold_left Rplus l acc = acc + JS.sum l.
Proof.
  unfold JS.sum. revert acc. induction l as [| x l IH]; intros acc; simpl.
  - lra.
  - rewrite (IH (acc + x)), (IH (0 + x)). lra.
Qed.

Lemma sum_cons (x : R) (l : list R) : JS.sum (x :: l) = x + JS.sum l.
Proof. unfold JS.sum at 1. simpl. rewrite sum_shift. lra. Qed.










End LessonTrend.

(** ** Further facts about the engine *)

Section TightBounds.

Lemma exp_lower_tight : 4 / 10 <= exp (- (9084 / 10000)).
Proof.
  pose proof (pow_le_exp (- (2271 / 640000)) 256) as H.
  replace (INR 256 * - (2271 / 640000)) with (- (9084 / 10000)) in H
    by (rewrite INR_IZR_INZ; simpl; lra).
  apply Rle_trans with (2 := H ltac:(lra)).
  replace ((1 + - (2271 / 640000)) ^ 256)
    with (((((((((1 + - (2271 / 640000)) ^ 2) ^ 2) ^ 2) ^ 2) ^ 2) ^ 2) ^ 2) ^ 2)
    by (rewrite <- !pow_mult; reflexivity).
  assert (H1 : 9929157 / 10000000 <= ((1 + - (2271 / 640000)) ^ 2)) by (simpl; lra).
  assert (H2 : 1971763 / 2000000 <= (((1 + - (2271 / 640000)) ^ 2) ^ 2)).
  { apply Rle_trans with ((9929157 / 10000000) ^ 2); [simpl; lra | apply pow_incr; lra]. }
  assert (H3 : 9719623 / 10000000 <= ((((1 + - (2271 / 640000)) ^ 2) ^ 2) ^ 2)).
  { apply Rle_trans with ((1971763 / 2000000) ^ 2); [simpl; lra | apply pow_incr; lra]. }
  assert (H4 : 9447107 / 10000000 <= (((((1 + - (2271 / 640000)) ^ 2) ^ 2) ^ 2) ^ 2)).
  { apply Rle_trans with ((9719623 / 10000000) ^ 2); [simpl; lra | apply pow_incr; lra]. }
  assert (H5 : 8924783 / 10000000 <= ((((((1 + - (2271 / 640000)) ^ 2) ^ 2) ^ 2) ^ 2) ^ 2)).
  { apply Rle_trans with ((9447107 / 10000000) ^ 2); [simpl; lra | apply pow_incr; lra]. }
  assert (H6 : 318607 / 400000 <= (((((((1 + - (2271 / 640000)) ^ 2) ^ 2) ^ 2) ^ 2) ^ 2) ^ 2)).
  { apply Rle_trans with ((8924783 / 10000000) ^ 2); [simpl; lra | apply pow_incr; lra]. }
  assert (H7 : 6344401 / 10000000 <= ((((((((1 + - (2271 / 640000)) ^ 2) ^ 2) ^ 2) ^ 2) ^ 2) ^ 2) ^ 2)).
  { apply Rle_trans with ((318607 / 400000) ^ 2); [simpl; lra | apply pow_incr; lra]. }
  assert (H8 : 2012571 / 5000000 <= (((((((((1 + - (2271 / 640000)) ^ 2) ^ 2) ^ 2) ^ 2) ^ 2) ^ 2) ^ 2) ^ 2)).
  { apply Rle_trans with ((6344401 / 10000000) ^ 2); [simpl; lra | apply pow_incr; lra]. }
  lra.
Qed.

Lemma exp_upper_tight : exp (- (925 / 1000)) < 4 / 10.
Proof.
  pose proof (pow_le_exp (37 / 10240) 256) as H.
  replace (INR 256 * (37 / 10240)) with (925 / 1000) in H
    by (rewrite INR_IZR_INZ; simpl; lra).
  assert (Hbig : 5 / 2 < exp (925 / 1000)).
  { apply Rlt_le_trans with (2 := H ltac:(lra)).
    replace ((1 + 37 / 10240) ^ 256)
      with (((((((((1 + 37 / 10240) ^ 2) ^ 2) ^ 2) ^ 2) ^ 2) ^ 2) ^ 2) ^ 2)
      by (rewrite <- !pow_mult; reflexivity).
    assert (H1 : 2518099 / 2500000 <= ((1 + 37 / 10240) ^ 2)) by (simpl; lra).
    assert (H2 : 2536329 / 2500000 <= (((1 + 37 / 10240) ^ 2) ^ 2)).
    { apply Rle_trans with ((2518099 / 2500000) ^ 2); [simpl; lra | apply pow_incr; lra]. }
    assert (H3 : 10292743 / 10000000 <= ((((1 + 37 / 10240) ^ 2) ^ 2) ^ 2)).
    { apply Rle_trans with ((2536329 / 2500000) ^ 2); [simpl; lra | apply pow_incr; lra]. }
    assert (H4 : 2118811 / 2000000 <= (((((1 + 37 / 10240) ^ 2) ^ 2) ^ 2) ^ 2)).
    { apply Rle_trans with ((10292743 / 10000000) ^ 2); [simpl; lra | apply pow_incr; lra]. }
    assert (H5 : 56117 / 50000 <= ((((((1 + 37 / 10240) ^ 2) ^ 2) ^ 2) ^ 2) ^ 2)).
    { apply Rle_trans with ((2118811 / 2000000) ^ 2); [simpl; lra | apply pow_incr; lra]. }
    assert (H6 : 1259647 / 1000000 <= (((((((1 + 37 / 10240) ^ 2) ^ 2) ^ 2) ^ 2) ^ 2) ^ 2)).
    { apply Rle_trans with ((56117 / 50000) ^ 2); [simpl; lra | apply pow_incr; lra]. }
    assert (H7 : 3173421 / 2000000 <= ((((((((1 + 37 / 10240) ^ 2) ^ 2) ^ 2) ^ 2) ^ 2) ^ 2) ^ 2)).
    { apply Rle_trans with ((1259647 / 1000000) ^ 2); [simpl; lra | apply pow_incr; lra]. }
    assert (H8 : 12588251 / 5000000 <= (((((((((1 + 37 / 10240) ^ 2) ^ 2) ^ 2) ^ 2) ^ 2) ^ 2) ^ 2) ^ 2)).
    { apply Rle_trans with ((3173421 / 2000000) ^ 2); [simpl; lra | apply pow_incr; lra]. }
    lra. }
  rewrite exp_Ropp.
  apply Rmult_lt_reg_r with (exp (925 / 1000)); [apply exp_pos |].
  rewrite Rinv_l by apply exp_neq_0. lra.
Qed.

Lemma ln_default_ratio_tight : - (925 / 1000) < ln (40 / 100) <= - (9084 / 10000).
Proof.
  assert (Hpos : 0 < 40 / 100) by lra.
  split.
  - apply exp_lt_inv. rewrite exp_ln by assumption.
    pose proof exp_upper_tight. lra.
  - destruct (Rle_dec (ln (40 / 100)) (- (9084 / 10000))) as [Hle | Hgt]; [assumption |].
    exfalso. apply Rnot_le_lt in Hgt. apply exp_increasing in Hgt.
    rewrite exp_ln in Hgt by assumption.
    pose proof exp_lower_tight. lra.
Qed.

End TightBounds.

Section MappingFacts.
Import RetentionAlgorithm.

(** The value of the mapping in each band; below 50 the product
    [score * 0.4] stays under the floor 20. *)
Lemma scoreToRetention_values (score : R) :
  (score < 50 /\ scoreToRetention score = 20)
  \/ (50 <= score < 60 /\ scoreToRetention score = 45)
  \/ (60 <= score < 70 /\ scoreToRetention score = 60)
  \/ (70 <= score < 80 /\ scoreToRetention score = 75)
  \/ (80 <= score < 90 /\ scoreToRetention score = 85)
  \/ (90 <= score /\ scoreToRetention score = 95).
Proof.
  unfold scoreToRetention.
  destruct (Rle_dec 90 score); [do 5 right; split; [assumption | reflexivity] |].
  destruct (Rle_dec 80 score); [do 4 right; left; split; [lra | reflexivity] |].
  destruct (Rle_dec 70 score); [do 3 right; left; split; [lra | reflexivity] |].
  destruct (Rle_dec 60 score); [do 2 right; left; split; [lra | reflexivity] |].
  destruct (Rle_dec 50 score); [right; left; split; [lra | reflexivity] |].
  left. split; [lra | apply Rmax_left; lra].
Qed.

(** X1. Every score below 50 maps to the retention 20: the term
    [score * 0.4] of the last branch never exceeds the floor. *)
Theorem scoreToRetention_below_fifty (score : R) :
  score < 50 -> scoreToRetention score = 20.
Proof.
  intros Hs. destruct (scoreToRetention_values score)
    as [[_ H] | [[B _] | [[B _] | [[B _] | [[B _] | [B _]]]]]]; [exact H | lra ..].
Qed.

Lemma scoreToRetention_below_fifty_witness :
  scoreToRetention 49 = 20 /\ scoreToRetention 0 = 20 /\ scoreToRetention (-30) = 20.
Proof.
  repeat split; apply scoreToRetention_below_fifty; lra.
Defined.

(** X2. The mapping never decreases when the score grows, and it takes
    only the six values 20, 45, 60, 75, 85 and 95. *)
Theorem scoreToRetention_monotone (score1 score2 : R) :
  (score1 <= score2 -> scoreToRetention score1 <= scoreToRetention score2)
  /\ (scoreToRetention score1 = 20 \/ scoreToRetention score1 = 45
      \/ scoreToRetention score1 = 60 \/ scoreToRetention score1 = 75
      \/ scoreToRetention score1 = 85 \/ scoreToRetention score1 = 95).
Proof.
  split.
  - intros Hle.
    destruct (scoreToRetention_values score1)
      as [[B1 ->] | [[B1 ->] | [[B1 ->] | [[B1 ->] | [[B1 ->] | [B1 ->]]]]]];
    destruct (scoreToRetention_values score2)
      as [[B2 ->] | [[B2 ->] | [[B2 ->] | [[B2 ->] | [[B2 ->] | [B2 ->]]]]]];
    lra.
  - destruct (scoreToRetention_values score1)
      as [[_ ->] | [[_ ->] | [[_ ->] | [[_ ->] | [[_ ->] | [_ ->]]]]]]; auto 6.
Qed.

Lemma scoreToRetention_monotone_witness :
  scoreToRetention 55 <= scoreToRetention 72.
Proof.
  apply (scoreToRetention_monotone 55 72). lra.
Defined.

Lemma scoreToRetention_range (score : R) : 20 <= scoreToRetention score <= 95.
Proof.
  destruct (scoreToRetention_values score)
    as [[_ ->] | [[_ ->] | [[_ ->] | [[_ ->] | [[_ ->] | [_ ->]]]]]]; lra.
Qed.

End MappingFacts.

Section StrengthFacts.
Import RetentionAlgorithm.

Lemma ln_ratio_neg (R0 R_ : R) : 0 < R0 < R_ -> ln (R0 / R_) < 0.
Proof.
  intros [H0 Hlt]. rewrite <- ln_1.
  apply ln_increasing; [apply ratio_pos; lra |].
  apply Rmult_lt_reg_r with R_; [lra |]. unfold Rdiv.
  rewrite Rmult_assoc, Rinv_l by lra. lra.
Qed.

Lemma ln_ratio_pos (R0 R_ : R) : 0 < R_ < R0 -> 0 < ln (R0 / R_).
Proof.
  intros [H0 Hlt]. rewrite <- ln_1.
  apply ln_increasing; [lra |].
  apply Rmult_lt_reg_r with R_; [lra |]. unfold Rdiv.
  rewrite Rmult_assoc, Rinv_l by lra. lra.
Qed.

Lemma strength_floor_when_improved (t t0 R0 R_ : R) :
  0 < t - t0 -> 0 < R0 < R_ -> calculateLearningStrength t t0 R0 R_ = JS.Fin 1.
Proof.
  intros Hgap [H0 Hlt].
  rewrite calculateLearningStrength_finite_quotient by lra.
  f_equal. unfold Spec.clamp, Spec.invertedDecay.
  pose proof (ln_ratio_neg R0 R_ (conj H0 Hlt)) as Hln.
  assert (Hq : (t - t0) / ln (R0 / R_) < 0).
  { unfold Rdiv. apply Rinv_lt_0_compat in Hln. nra. }
  rewrite Rmin_right by lra. apply Rmax_left. lra.
Qed.

(** X3. When the current retention is higher than the previous one (and
    time has passed), the estimated strength is the floor 1, whatever the
    gap: the quotient is negative and the clamp lifts it to 1. *)
Theorem calculateLearningStrength_improved (t t0 R0 R_ : R) :
  0 < t - t0 -> 0 < R0 < R_ -> calculateLearningStrength t t0 R0 R_ = JS.Fin 1.
Proof.
  intros Hgap Hlt. now apply strength_floor_when_improved.
Qed.

Lemma calculateLearningStrength_improved_witness :
  calculateLearningStrength 10 0 60 95 = JS.Fin 1.
Proof.
  apply calculateLearningStrength_improved; lra.
Defined.

(** X4. Between the same two retention readings, a longer positive gap
    never gives a lower strength. *)
Theorem calculateLearningStrength_gap_monotone (t1 t2 t0 R0 R_ : R) :
  0 < t1 - t0 -> t1 <= t2 ->
  exists s1 s2,
    calculateLearningStrength t1 t0 R0 R_ = JS.Fin s1
    /\ calculateLearningStrength t2 t0 R0 R_ = JS.Fin s2
    /\ s1 <= s2.
Proof.
  intros Hgap Hle.
  destruct (Rle_dec R0 0) as [H0 | H0].
  { exists 5, 5. rewrite !calculateLearningStrength_default by auto.
    repeat split; lra. }
  destruct (Rle_dec R_ 0) as [H | H].
  { exists 5, 5. rewrite !calculateLearningStrength_default by auto.
    repeat split; lra. }
  apply Rnot_le_lt in H0, H.
  destruct (Rtotal_order R0 R_) as [Hlt | [-> | Hgt]].
  - exists 1, 1. rewrite !strength_floor_when_improved by lra.
    repeat split; lra.
  - exists 60, 60. rewrite !calculateLearningStrength_infinite_quotient by lra.
    repeat split; lra.
  - eexists _, _. rewrite !calculateLearningStrength_finite_quotient by lra.
    split; [reflexivity |]. split; [reflexivity |].
    unfold Spec.clamp, Spec.invertedDecay.
    pose proof (ln_ratio_pos R0 R_ (conj H Hgt)) as Hln.
    apply Rle_max_compat_l, Rle_min_compat_l, quotient_le_compat; lra.
Qed.

Lemma calculateLearningStrength_gap_monotone_witness :
  exists s1 s2,
    calculateLearningStrength 3 0 95 60 = JS.Fin s1
    /\ calculateLearningStrength 10 0 95 60 = JS.Fin s2
    /\ s1 <= s2.
Proof.
  apply calculateLearningStrength_gap_monotone; lra.
Defined.

End StrengthFacts.

Section SchedulerFacts.
Import RetentionAlgorithm.

(** X5. For a threshold from above 0 up to 100 the day count never
    decreases when the strength grows, and every strength that is not
    positive is scheduled one day out. *)
Theorem calculateNextReviewDays_monotone (S1 S2 threshold : R) :
  0 < threshold <= 100 ->
  (S1 <= S2 ->
   (calculateNextReviewDays S1 (Some threshold)
    <= calculateNextReviewDays S2 (Some threshold))%Z)
  /\ (S1 <= 0 -> calculateNextReviewDays S1 (Some threshold) = 1%Z).
Proof.
  intros [Hpos Hle].
  assert (Hln : ln (threshold / 100) <= 0).
  { destruct (Req_dec_T threshold 100) as [-> | Hne].
    - replace (100 / 100) with 1 by lra. rewrite ln_1. lra.
    - left. rewrite <- ln_1. apply ln_increasing; lra. }
  rewrite !calculateNextReviewDays_unfold by assumption.
  unfold Spec.thresholdDay. split.
  - intros HS. apply Z.max_le_compat_l, round_mono. nra.
  - intros HS. apply Z.max_l.
    assert (Hr : JS.round (/ 2) = 1%Z) by (apply round_eq; lra).
    rewrite <- Hr. apply round_mono. nra.
Qed.

Lemma calculateNextReviewDays_monotone_witness :
  (calculateNextReviewDays 5 (Some 40%R) <= calculateNextReviewDays 21 (Some 40%R))%Z
  /\ calculateNextReviewDays (-2) (Some 40%R) = 1%Z.
Proof.
  destruct (calculateNextReviewDays_monotone 5 21 40) as [Hm _]; [lra |].
  destruct (calculateNextReviewDays_monotone (-2) 0 40) as [_ Hz]; [lra |].
  split; [apply Hm | apply Hz]; lra.
Defined.

Lemma calculateNextReviewDays_floor_strength : calculateNextReviewDays 1 None = 1%Z.
Proof.
  change (calculateNextReviewDays 1 None) with (calculateNextReviewDays 1 (Some 40)).
  rewrite calculateNextReviewDays_unfold by lra.
  replace (JS.round (Spec.thresholdDay 1 40)) with 1%Z; [reflexivity |].
  symmetry. apply round_eq. unfold Spec.thresholdDay.
  pose proof ln_default_ratio_tight. lra.
Qed.

Lemma calculateNextReviewDays_cap_strength : calculateNextReviewDays 60 None = 55%Z.
Proof.
  change (calculateNextReviewDays 60 None) with (calculateNextReviewDays 60 (Some 40)).
  rewrite calculateNextReviewDays_unfold by lra.
  replace (JS.round (Spec.thresholdDay 60 40)) with 55%Z; [reflexivity |].
  symmetry. apply round_eq. unfold Spec.thresholdDay.
  pose proof ln_default_ratio_tight. lra.
Qed.

Lemma days_within_clamp (S : R) :
  1 <= S <= 60 -> (1 <= calculateNextReviewDays S None <= 55)%Z.
Proof.
  intros [Hlo Hhi].
  split; [apply calculateNextReviewDays_at_least_one |].
  rewrite <- calculateNextReviewDays_cap_strength.
  change (calculateNextReviewDays S None <= calculateNextReviewDays 60 None)%Z
    with (calculateNextReviewDays S (Some 40%R)
          <= calculateNextReviewDays 60 (Some 40%R))%Z.
  rewrite !calculateNextReviewDays_unfold by lra.
  apply Z.max_le_compat_l, round_mono. unfold Spec.thresholdDay.
  pose proof ln_default_ratio_tight. nra.
Qed.

(** X6. With the default threshold, a strength within the clamp range 1
    to 60 is scheduled between 1 and 55 days out; the ends are reached at
    strength 1 and strength 60. *)
Theorem calculateNextReviewDays_clamped_strength (S : R) :
  1 <= S <= 60 ->
  (1 <= calculateNextReviewDays S None <= 55)%Z
  /\ calculateNextReviewDays 1 None = 1%Z
  /\ calculateNextReviewDays 60 None = 55%Z.
Proof.
  intros HS. split; [now apply days_within_clamp |].
  split; [apply calculateNextReviewDays_floor_strength
         | apply calculateNextReviewDays_cap_strength].
Qed.

Lemma calculateNextReviewDays_clamped_strength_witness :
  (1 <= calculateNextReviewDays 21 None <= 55)%Z.
Proof.
  apply (calculateNextReviewDays_clamped_strength 21). lra.
Defined.

End SchedulerFacts.

Section UpdateFacts.
Import RetentionAlgorithm.

Lemma updateLearningStrength_nonempty (now : Z) (history : list Attempt.t)
    (a : Attempt.t) (score : R) :
  updateLearningStrength now (Some (history ++ [a])) score
  = StrengthUpdate.mk
      (calculateLearningStrength (IZR (now - Attempt.date a) / JS.msPerDay) 0
         (scoreToRetention (Attempt.score a)) (scoreToRetention score))
      (scoreToRetention score) None
      (Some (IZR (now - Attempt.date a) / JS.msPerDay))
      (Some (scoreToRetention (Attempt.score a))).
Proof.
  unfold updateLearningStrength.
  destruct (history ++ [a]) as [| x rest] eqn:Heq.
  - destruct history; discriminate.
  - rewrite <- Heq, last_last. reflexivity.
Qed.

(** X7. [updateLearningStrength] reads only the last attempt of the
    history: the earlier attempts do not change what it returns. *)
Theorem updateLearningStrength_last_only (now : Z) (history : list Attempt.t)
    (a : Attempt.t) (score : R) :
  updateLearningStrength now (Some (history ++ [a])) score
  = updateLearningStrength now (Some [a]) score.
Proof.
  rewrite (updateLearningStrength_nonempty now history a).
  rewrite (updateLearningStrength_nonempty now [] a). reflexivity.
Qed.

Lemma history_cases {A : Type} (l : list A) :
  l = [] \/ exists history a, l = history ++ [a].
Proof.
  destruct l as [| x l]; [now left | right].
  destruct (@exists_last A (x :: l)) as (history & a & Heq); [discriminate |].
  exists history, a. exact Heq.
Qed.

(** Whatever the history, the finite score and the clock, the strength
    returned is finite and lies between 1 and 60, the retention lies
    between 20 and 95, and the day count scheduled from that strength lies
    between 1 and 55. *)
Lemma strength_update_bounds (now : Z) (attemptHistory : option (list Attempt.t))
    (score : R) :
  exists s,
    StrengthUpdate.S (updateLearningStrength now attemptHistory score) = JS.Fin s
    /\ 1 <= s <= 60
    /\ 20 <= StrengthUpdate.retention (updateLearningStrength now attemptHistory score) <= 95
    /\ (1 <= calculateNextReviewDays s None <= 55)%Z.
Proof.
  assert (Hfirst : forall h, h = None \/ h = Some [] ->
            exists s,
              StrengthUpdate.S (updateLearningStrength now h score) = JS.Fin s
              /\ 1 <= s <= 60
              /\ 20 <= StrengthUpdate.retention (updateLearningStrength now h score) <= 95
              /\ (1 <= calculateNextReviewDays s None <= 55)%Z).
  { intros h [-> | ->]; exists 5; simpl;
      (split; [reflexivity |]; split; [lra |];
       split; [apply scoreToRetention_range |];
       rewrite calculateNextReviewDays_default_strength; lia). }
  destruct attemptHistory as [l |]; [| apply Hfirst; auto].
  destruct (history_cases l) as [-> | (history & a & ->)]; [apply Hfirst; auto |].
  rewrite updateLearningStrength_nonempty. cbn [StrengthUpdate.S StrengthUpdate.retention].
  destruct (calculateLearningStrength_range
              (IZR (now - Attempt.date a) / JS.msPerDay) 0
              (scoreToRetention (Attempt.score a)) (scoreToRetention score))
    as (s & -> & Hs).
  exists s. split; [reflexivity |]. split; [exact Hs |].
  split; [apply scoreToRetention_range |].
  now apply days_within_clamp.
Qed.

Lemma elapsed_days_sign (now date : Z) :
  ((now <= date)%Z -> IZR (now - date) / JS.msPerDay - 0 <= 0)
  /\ ((date < now)%Z -> 0 < IZR (now - date) / JS.msPerDay - 0).
Proof.
  unfold JS.msPerDay. split; intros H.
  - assert (Hd : IZR (now - date) <= 0) by (apply IZR_le; lia). lra.
  - assert (Hd : 0 < IZR (now - date)) by (apply IZR_lt; lia). lra.
Qed.

(** X9. When the clock is not after the date of the last attempt, the
    strength falls back to the default 5, whatever the scores are. *)
Theorem updateLearningStrength_no_elapsed_time (now : Z) (history : list Attempt.t)
    (a : Attempt.t) (score : R) :
  (now <= Attempt.date a)%Z ->
  StrengthUpdate.S (updateLearningStrength now (Some (history ++ [a])) score) = JS.Fin 5.
Proof.
  intros Hclock. rewrite updateLearningStrength_nonempty. cbn [StrengthUpdate.S].
  apply calculateLearningStrength_default. left.
  now apply elapsed_days_sign.
Qed.

Lemma updateLearningStrength_no_elapsed_time_witness :
  StrengthUpdate.S
    (updateLearningStrength (996 * Examples.day)
       (Some ([Examples.firstTry] ++ [Examples.secondTry])) 80)
  = JS.Fin 5.
Proof.
  apply updateLearningStrength_no_elapsed_time.
  unfold Examples.secondTry, Examples.day. simpl. lia.
Defined.

(** X10. When time has passed since the last attempt: a score that maps to
    a higher retention than the last score gives the strength 1, and the
    next review one day out; a score that maps to the same retention (for
    instance the same score again) gives the strength 60, and the next
    review 55 days out. *)
Theorem updateLearningStrength_regimes (now : Z) (history : list Attempt.t)
    (a : Attempt.t) (score : R) :
  (Attempt.date a < now)%Z ->
  (scoreToRetention (Attempt.score a) < scoreToRetention score ->
   StrengthUpdate.S (updateLearningStrength now (Some (history ++ [a])) score) = JS.Fin 1
   /\ calculateNextReviewDays 1 None = 1%Z)
  /\ (scoreToRetention (Attempt.score a) = scoreToRetention score ->
      StrengthUpdate.S (updateLearningStrength now (Some (history ++ [a])) score)
      = JS.Fin 60
      /\ calculateNextReviewDays 60 None = 55%Z)
  /\ (Attempt.score a = score ->
      StrengthUpdate.S (updateLearningStrength now (Some (history ++ [a])) score)
      = JS.Fin 60).
Proof.
  intros Hclock. rewrite updateLearningStrength_nonempty. cbn [StrengthUpdate.S].
  pose proof (proj2 (elapsed_days_sign now (Attempt.date a)) Hclock) as Hgap.
  pose proof (scoreToRetention_range (Attempt.score a)) as Hprev.
  pose proof (scoreToRetention_range score) as Hcur.
  split; [| split].
  - intros Hup. split; [| apply calculateNextReviewDays_floor_strength].
    apply strength_floor_when_improved; [assumption | lra].
  - intros ->. split; [| apply calculateNextReviewDays_cap_strength].
    apply calculateLearningStrength_infinite_quotient; [assumption | lra].
  - intros ->. apply calculateLearningStrength_infinite_quotient; [assumption | lra].
Qed.

Lemma updateLearningStrength_regimes_witness :
  StrengthUpdate.S
    (updateLearningStrength Examples.now
       (Some ([Examples.firstTry] ++ [Examples.secondTry])) 50)
  = JS.Fin 60.
Proof.
  destruct (updateLearningStrength_regimes Examples.now [Examples.firstTry]
              Examples.secondTry 50) as (_ & _ & Hsame).
  - unfold Examples.secondTry, Examples.now, Examples.day. simpl. lia.
  - apply Hsame. reflexivity.
Defined.

End UpdateFacts.

Section RankerFacts.
Import RetentionAlgorithm.

(** The decision of the callback, read off the two comparisons. *)
Lemma recommend_decision (now : Z) (q : Quiz.t) :
  Recommendation.priority (recommend now q)
  = (if JS.leb (Spec.rawDaysUntilDue now q) (JS.Fin 0) then high
     else if JS.leb (Spec.rawDaysUntilDue now q) (JS.Fin 1) then medium
     else match Quiz.lastAttempt q with
          | Some a => if Rlt_dec (Attempt.score a) 70 then high else low
          | None => high
          end)
  /\ Recommendation.isDue (recommend now q)
     = JS.leb (Spec.rawDaysUntilDue now q) (JS.Fin 0).
Proof.
  unfold recommend, Spec.rawDaysUntilDue.
  destruct (Quiz.lastAttempt q) as [a |].
  - destruct (JS.leb _ (JS.Fin 0)); [split; reflexivity |].
    destruct (JS.leb _ (JS.Fin 1)); [split; reflexivity |].
    destruct (Rlt_dec (Attempt.score a) 70); split; reflexivity.
  - simpl. destruct (Rle_dec 0 0); [split; reflexivity | lra].
Qed.

Lemma leb_zero_one (d : JS.num) :
  JS.leb d (JS.Fin 0) = true -> JS.leb d (JS.Fin 1) = true.
Proof.
  destruct d as [x | | |]; simpl; try discriminate; try reflexivity.
  destruct (Rle_dec x 0); [| discriminate].
  destruct (Rle_dec x 1); [reflexivity | lra].
Qed.

(** X11. The priority of a result follows from the signed distance [d] to
    the stored next review ([0] for a quiz never attempted, not a number
    for an attempt without next review date) and the last score alone:
    high when [d <= 0], or when [d <= 1] fails and the score is below 70;
    medium when [d <= 0] fails and [d <= 1] holds, whatever the score; low
    when [d <= 1] fails and the score is at least 70.  The result is due
    exactly when [d <= 0].  Without a next review date both comparisons
    fail: the result is never due and never medium. *)
Theorem recommend_priority (now : Z) (q : Quiz.t) :
  (Recommendation.priority (recommend now q) = high <->
   JS.leb (Spec.rawDaysUntilDue now q) (JS.Fin 0) = true
   \/ (JS.leb (Spec.rawDaysUntilDue now q) (JS.Fin 1) = false
       /\ exists a, Quiz.lastAttempt q = Some a /\ Attempt.score a < 70))
  /\ (Recommendation.priority (recommend now q) = medium <->
      JS.leb (Spec.rawDaysUntilDue now q) (JS.Fin 0) = false
      /\ JS.leb (Spec.rawDaysUntilDue now q) (JS.Fin 1) = true)
  /\ (Recommendation.priority (recommend now q) = low <->
      JS.leb (Spec.rawDaysUntilDue now q) (JS.Fin 1) = false
      /\ exists a, Quiz.lastAttempt q = Some a /\ 70 <= Attempt.score a)
  /\ (Recommendation.isDue (recommend now q) = true <->
      JS.leb (Spec.rawDaysUntilDue now q) (JS.Fin 0) = true)
  /\ (Spec.rawDaysUntilDue now q = JS.NaN ->
      Recommendation.isDue (recommend now q) = false
      /\ Recommendation.priority (recommend now q) <> medium).
Proof.
  destruct (recommend_decision now q) as [Hprio Hdue]. rewrite Hprio, Hdue.
  pose proof (leb_zero_one (Spec.rawDaysUntilDue now q)) as Hmono.
  destruct (Quiz.lastAttempt q) as [a |] eqn:Hq.
  - assert (Elow : (exists b, Some a = Some b /\ Attempt.score b < 70)
                   <-> Attempt.score a < 70).
    { split; [intros (b & Hb & Hs); now injection Hb as -> | eauto]. }
    assert (Egood : (exists b, Some a = Some b /\ 70 <= Attempt.score b)
                    <-> 70 <= Attempt.score a).
    { split; [intros (b & Hb & Hs); now injection Hb as -> | eauto]. }
    rewrite Elow, Egood.
    split; [| split; [| split; [| split]]].
    + destruct (JS.leb _ (JS.Fin 0)), (JS.leb _ (JS.Fin 1)),
        (Rlt_dec (Attempt.score a) 70);
        intuition (try discriminate; try lra).
    + destruct (JS.leb _ (JS.Fin 0)), (JS.leb _ (JS.Fin 1)),
        (Rlt_dec (Attempt.score a) 70);
        intuition (try discriminate).
    + destruct (JS.leb _ (JS.Fin 0)), (JS.leb _ (JS.Fin 1)),
        (Rlt_dec (Attempt.score a) 70);
        intuition (try discriminate; try lra).
    + tauto.
    + intros ->. simpl. split; [reflexivity |].
      destruct (Rlt_dec (Attempt.score a) 70); discriminate.
  - assert (Hd : Spec.rawDaysUntilDue now q = JS.Fin 0)
      by (unfold Spec.rawDaysUntilDue; now rewrite Hq).
    rewrite Hd. simpl.
    destruct (Rle_dec 0 0); [| lra]. destruct (Rle_dec 0 1); [| lra].
    split; [| split; [| split; [| split]]].
    + split; [now left | reflexivity].
    + split; [discriminate | intros [H _]; discriminate].
    + split; [discriminate | intros [H _]; discriminate].
    + tauto.
    + discriminate.
Qed.

Lemma recommend_priority_witness :
  Recommendation.isDue (recommend Examples.now Examples.undated) = false
  /\ Recommendation.priority (recommend Examples.now Examples.undated) <> medium.
Proof.
  apply (recommend_priority Examples.now Examples.undated). reflexivity.
Defined.

(** X12. The [retention] of a result is absent exactly for a quiz never
    attempted; when present it lies between 0 and 100. *)
Theorem recommend_retention (now : Z) (q : Quiz.t) :
  (Recommendation.retention (recommend now q) = None <-> Quiz.lastAttempt q = None)
  /\ (forall x, Recommendation.retention (recommend now q) = Some x -> 0 <= x <= 100).
Proof.
  unfold recommend. destruct (Quiz.lastAttempt q) as [a |].
  - destruct (JS.leb _ (JS.Fin 0));
      [| destruct (JS.leb _ (JS.Fin 1)); [| destruct (Rlt_dec _ 70)]];
      simpl; (split; [split; discriminate |]);
      intros x Hx; injection Hx as <-; apply calculateRetention_range.
  - simpl. split; [tauto | discriminate].
Qed.

Lemma recommend_retention_witness :
  exists x,
    Recommendation.retention (recommend Examples.now Examples.lowScoreLater) = Some x
    /\ 0 <= x <= 100.
Proof.
  destruct (recommend_retention Examples.now Examples.lowScoreLater) as [Hnone Hrange].
  destruct (Recommendation.retention (recommend Examples.now Examples.lowScoreLater))
    as [x |] eqn:Hx.
  - exists x. split; [reflexivity | now apply Hrange].
  - exfalso. destruct Hnone as [Hnone _]. specialize (Hnone eq_refl). discriminate.
Defined.





(** X14. [getQuizRecommendations] returns exactly one result for each
    input quiz: the quizzes of the results are a rearrangement of the
    input, and an empty input gives an empty array. *)
Theorem getQuizRecommendations_quizzes (now : Z) (quizzes : list Quiz.t) :
  Permutation quizzes (map Recommendation.quiz (getQuizRecommendations now quizzes))
  /\ length (getQuizRecommendations now quizzes) = length quizzes
  /\ getQuizRecommendations now [] = [].
Proof.
  assert (Hperm : Permutation (map (recommend now) quizzes)
                    (getQuizRecommendations now quizzes)) by apply sort_perm.
  split; [| split; [| reflexivity]].
  - rewrite <- Hperm, map_map.
    rewrite (map_ext _ (fun q => q)); [now rewrite map_id |].
    intros q. now destruct (recommend_fields now q).
  - rewrite <- (Permutation_length Hperm). apply length_map.
Qed.

End RankerFacts.

Section LessonFacts.
Import RetentionAlgorithm.

Lemma sum_bounds (lo hi : R) (l : list R) :
  Forall (fun x => lo <= x <= hi) l ->
  INR (length l) * lo <= JS.sum l <= INR (length l) * hi.
Proof.
  induction 1 as [| x l Hx _ IH].
  - unfold JS.sum. simpl. lra.
  - rewrite sum_cons. cbn [length]. rewrite S_INR. lra.
Qed.

Lemma mean_bounds (lo hi : R) (l : list R) :
  l <> [] -> Forall (fun x => lo <= x <= hi) l -> lo <= Aux.meanOrZero l <= hi.
Proof.
  intros Hne Hall. rewrite mean_nonempty by assumption.
  pose proof (sum_bounds lo hi l Hall) as [Hlo Hhi].
  assert (Hlen : 0 < INR (length l)).
  { apply lt_0_INR. destruct l; [contradiction | simpl; lia]. }
  split.
  - apply Rmult_le_reg_r with (INR (length l)); [assumption |].
    unfold Rdiv. rewrite Rmult_assoc, Rinv_l by lra. lra.
  - apply Rmult_le_reg_r with (INR (length l)); [assumption |].
    unfold Rdiv. rewrite Rmult_assoc, Rinv_l by lra. lra.
Qed.

Lemma round_within (x : R) (lo hi : Z) :
  IZR lo <= x <= IZR hi -> (lo <= JS.round x <= hi)%Z.
Proof.
  intros [Hlo Hhi]. split.
  - rewrite <- (round_IZR lo). now apply round_mono.
  - rewrite <- (round_IZR hi). now apply round_mono.
Qed.

Lemma calculateLessonStats_nonempty (now : Z) (history : list Attempt.t) (a : Attempt.t) :
  calculateLessonStats now (Lesson.mk (Some (history ++ [a])))
  = LessonStats.mk
      (JS.round (Aux.meanOrZero (map Attempt.score (history ++ [a]))))
      (length (history ++ [a]))
      (IZR (JS.round (JS.or_default (Attempt.S a) 5 * 10)) / 10)
      (JS.round (calculateRetention (IZR (now - Attempt.date a) / JS.msPerDay)
                   (JS.or_default (Attempt.S a) 5)))
      (LessonStats.trend (calculateLessonStats now (Lesson.mk (Some (history ++ [a])))))
      (Some (calculateNextReviewDate now (JS.or_default (Attempt.S a) 5)
               (Some (Attempt.date a)))).
Proof.
  unfold calculateLessonStats. cbn [Lesson.quizAttempts].
  destruct (history ++ [a]) as [| x rest] eqn:Heq.
  - destruct history; discriminate.
  - rewrite <- Heq, last_last. cbn [LessonStats.trend].
    rewrite mean_nonempty by (rewrite Heq; discriminate).
    reflexivity.
Qed.

(** X15. For a lesson with attempts, [calculateLessonStats] counts every
    attempt, reports a current retention that is a whole number between 0
    and 100, an average score that is the rounded mean of the scores, and
    a next review date at least one day after the date of the last
    attempt. *)
Theorem calculateLessonStats_fields (now : Z) (history : list Attempt.t) (a : Attempt.t) :
  LessonStats.attemptCount (calculateLessonStats now (Lesson.mk (Some (history ++ [a]))))
  = S (length history)
  /\ (0 <= LessonStats.currentRetention
             (calculateLessonStats now (Lesson.mk (Some (history ++ [a])))) <= 100)%Z
  /\ LessonStats.averageScore
       (calculateLessonStats now (Lesson.mk (Some (history ++ [a]))))
     = JS.round (JS.sum (map Attempt.score (history ++ [a]))
                 / INR (S (length history)))
  /\ exists d,
       LessonStats.nextReviewDate
         (calculateLessonStats now (Lesson.mk (Some (history ++ [a])))) = Some d
       /\ (Attempt.date a < d)%Z.
Proof.
  rewrite calculateLessonStats_nonempty.
  cbn [LessonStats.attemptCount LessonStats.currentRetention LessonStats.averageScore
       LessonStats.nextReviewDate].
  split; [rewrite length_app; simpl; lia |].
  split; [apply round_within; apply calculateRetention_range |].
  split.
  { rewrite mean_nonempty by (destruct history; discriminate).
    rewrite length_map, length_app. do 3 f_equal. simpl. lia. }
  eexists. split; [reflexivity |].
  unfold calculateNextReviewDate.
  pose proof (calculateNextReviewDays_at_least_one (JS.or_default (Attempt.S a) 5) None).
  lia.
Qed.

(** X16. When all scores of the lesson lie between 0 and 100, so does the
    average score reported. *)
Theorem calculateLessonStats_average_range (now : Z) (attempts : list Attempt.t) :
  Forall (fun a => 0 <= Attempt.score a <= 100) attempts ->
  (0 <= LessonStats.averageScore
          (calculateLessonStats now (Lesson.mk (Some attempts))) <= 100)%Z.
Proof.
  intros Hall.
  destruct (history_cases attempts) as [-> | (history & a & ->)]; [simpl; lia |].
  rewrite calculateLessonStats_nonempty. cbn [LessonStats.averageScore].
  apply round_within. apply mean_bounds.
  - destruct history; discriminate.
  - apply Forall_map. exact Hall.
Qed.

Lemma calculateLessonStats_average_range_witness :
  (0 <= LessonStats.averageScore
          (calculateLessonStats Examples.now
             (Lesson.mk (Some [Examples.firstTry; Examples.secondTry]))) <= 100)%Z.
Proof.
  apply calculateLessonStats_average_range.
  repeat constructor; simpl; lra.
Defined.

(** X17. With two or three attempts there are no older scores, and their
    mean counts as 0: the trend is improving exactly when the mean of all
    scores exceeds 5, and it is never declining when no score is
    negative. *)
Theorem calculateLessonStats_trend_few_attempts (now : Z) (attempts : list Attempt.t) :
  (2 <= length attempts <= 3)%nat ->
  (LessonStats.trend (calculateLessonStats now (Lesson.mk (Some attempts))) = improving
   <-> 5 < JS.sum (map Attempt.score attempts) / INR (length attempts))
  /\ (Forall (fun a => 0 <= Attempt.score a) attempts ->
      LessonStats.trend (calculateLessonStats now (Lesson.mk (Some attempts)))
      <> declining).
Proof.
  intros [Hlo Hhi]. rewrite lesson_trend_agrees by assumption.
  set (scores := map Attempt.score attempts).
  assert (Hlen : length scores = length attempts) by apply length_map.
  unfold Aux.trendOrZero.
  assert (Hrecent : Spec.lastN 3 scores = scores).
  { unfold Spec.lastN. replace (length scores - 3)%nat with 0%nat by lia. reflexivity. }
  assert (Holder : Spec.allButLastN 3 scores = []).
  { apply length_zero_iff_nil. rewrite allButLastN_length. lia. }
  rewrite Hrecent, Holder, mean_empty.
  assert (Hne : scores <> []) by (intros E; rewrite E in Hlen; simpl in Hlen; lia).
  rewrite (mean_nonempty scores Hne), Hlen.
  split.
  - destruct (Rlt_dec _ _) as [Hup | Hn]; [split; [intros _; lra | reflexivity] |].
    destruct (Rlt_dec _ _); split; try discriminate; intros H; lra.
  - intros Hpos.
    assert (Hmean : 0 <= JS.sum scores / INR (length attempts)).
    { rewrite <- Hlen, <- (mean_nonempty scores Hne).
      assert (Hb : Forall (fun x => 0 <= x <= JS.sum scores + 1) scores
                   -> 0 <= Aux.meanOrZero scores) by (intros Hf; now apply (mean_bounds _ _ _ Hne Hf)).
      apply Hb. clear Hb.
      assert (Hnonneg : Forall (fun x => 0 <= x) scores) by (apply Forall_map; exact Hpos).
      clear - Hnonneg. induction Hnonneg as [| x l Hx Hl IH]; [constructor |].
      rewrite sum_cons.
      assert (Hs : 0 <= JS.sum l).
      { clear - Hl. induction Hl as [| y l Hy _ IHl];
          [unfold JS.sum; simpl; lra | rewrite sum_cons; lra]. }
      constructor; [lra |].
      eapply Forall_impl; [| exact IH]. simpl. intros y Hy. lra. }
    destruct (Rlt_dec _ _); [discriminate |].
    destruct (Rlt_dec _ _); [lra | discriminate].
Qed.

Lemma calculateLessonStats_trend_few_attempts_witness :
  LessonStats.trend
    (calculateLessonStats Examples.now
       (Lesson.mk (Some [Examples.firstTry; Examples.secondTry])))
  <> declining.
Proof.
  destruct (calculateLessonStats_trend_few_attempts Examples.now
              [Examples.firstTry; Examples.secondTry]) as [_ Hnot].
  - simpl. lia.
  - apply Hnot. repeat constructor; simpl; lra.
Defined.

(** X18. From four attempts on, the trend is neutral whenever all scores
    lie within a band five points wide. *)
Theorem calculateLessonStats_trend_steady (now : Z) (attempts : list Attempt.t) (lo : R) :
  (4 <= length attempts)%nat ->
  Forall (fun a => lo <= Attempt.score a <= lo + 5) attempts ->
  LessonStats.trend (calculateLessonStats now (Lesson.mk (Some attempts))) = neutral.
Proof.
  intros Hlen Hall. rewrite lesson_trend_agrees by lia.
  set (scores := map Attempt.score attempts).
  assert (Hs : length scores = length attempts) by apply length_map.
  assert (Hband : Forall (fun x => lo <= x <= lo + 5) scores)
    by (apply Forall_map; exact Hall).
  assert (Hsub : forall l, (forall x, In x l -> In x scores) ->
                           Forall (fun x => lo <= x <= lo + 5) l).
  { intros l Hin. apply Forall_forall. intros x Hx.
    rewrite Forall_forall in Hband. auto. }
  assert (Hrecent : lo <= Aux.meanOrZero (Spec.lastN 3 scores) <= lo + 5).
  { apply mean_bounds.
    - intros E. apply (f_equal (@length R)) in E. rewrite lastN_length in E.
      cbn [length] in E. lia.
    - apply Hsub. intros x Hx. unfold Spec.lastN in Hx.
      rewrite <- (firstn_skipn (length scores - 3) scores).
      apply in_or_app. now right. }
  assert (Holder : lo <= Aux.meanOrZero (Spec.allButLastN 3 scores) <= lo + 5).
  { apply mean_bounds.
    - intros E. apply (f_equal (@length R)) in E. rewrite allButLastN_length in E.
      cbn [length] in E. lia.
    - apply Hsub. intros x Hx. unfold Spec.allButLastN in Hx.
      rewrite <- (firstn_skipn (length scores - 3) scores).
      apply in_or_app. now left. }
  unfold Aux.trendOrZero.
  destruct (Rlt_dec _ _); [lra |]. destruct (Rlt_dec _ _); [lra | reflexivity].
Qed.

Lemma calculateLessonStats_trend_steady_witness :
  LessonStats.trend
    (calculateLessonStats Examples.now
       (Lesson.mk
          (Some [Examples.firstTry; Examples.secondTry;
                 Examples.firstTry; Examples.secondTry])))
  = neutral.
Proof.
  apply (calculateLessonStats_trend_steady _ _ 50).
  - simpl. lia.
  - repeat constructor; simpl; lra.
Defined.

End LessonFacts.

(** ** The quiz controller *)

Section CurveFacts.
Import RetentionAlgorithm EnhancedQuizController.

Lemma curvePoints_nth (S : R) (t : nat) (p : CurvePoint.t) :
  nth_error (curvePoints S) t = Some p ->
  (t <= 30)%nat
  /\ p = CurvePoint.mk t (JS.round (calculateRetention (INR t) S))
           (if Rle_dec (calculateRetention (INR t) S) 40 then true else false).
Proof.
  unfold curvePoints. rewrite nth_error_map, nth_error_seq.
  destruct (Nat.ltb_spec t 31) as [Hlt | Hge]; [| discriminate].
  simpl. intros H. injection H as <-. split; [lia | reflexivity].
Qed.

Lemma calculateRetention_antitone_all (S t1 t2 : R) :
  t1 <= t2 -> calculateRetention t2 S <= calculateRetention t1 S.
Proof.
  intros Ht. destruct (Rle_dec S 0) as [HS | HS].
  - rewrite !calculateRetention_collapsed by assumption. lra.
  - apply calculateRetention_antitone; lra.
Qed.

(** X19. The retention curve has 31 points, one for each day from 0 to 30
    in order; every retention on it is a whole number between 0 and 100;
    along the curve the retention never rises, and once a point is due
    every later point is due. *)
Theorem curvePoints_shape (S : R) (i j : nat) (p q : CurvePoint.t) :
  (i <= j)%nat ->
  nth_error (curvePoints S) i = Some p ->
  nth_error (curvePoints S) j = Some q ->
  length (curvePoints S) = 31%nat
  /\ CurvePoint.day p = i /\ CurvePoint.day q = j
  /\ (0 <= CurvePoint.retention q <= CurvePoint.retention p)%Z
  /\ (CurvePoint.retention p <= 100)%Z
  /\ (CurvePoint.isDue p = true -> CurvePoint.isDue q = true).
Proof.
  intros Hij Hp Hq.
  apply curvePoints_nth in Hp as [_ ->]. apply curvePoints_nth in Hq as [_ ->].
  cbn [CurvePoint.day CurvePoint.retention CurvePoint.isDue].
  assert (Hmono : calculateRetention (INR j) S <= calculateRetention (INR i) S)
    by (apply calculateRetention_antitone_all; now apply le_INR).
  pose proof (calculateRetention_range (INR i) S) as Hri.
  pose proof (calculateRetention_range (INR j) S) as Hrj.
  split; [unfold curvePoints; now rewrite length_map, length_seq |].
  split; [reflexivity |]. split; [reflexivity |].
  pose proof (round_within _ 0 100 Hri). pose proof (round_within _ 0 100 Hrj).
  pose proof (round_mono _ _ Hmono).
  split; [lia |]. split; [lia |].
  destruct (Rle_dec (calculateRetention (INR i) S) 40); [| discriminate].
    intros _. destruct (Rle_dec (calculateRetention (INR j) S) 40); [reflexivity | lra].
Qed.

Lemma curvePoints_shape_witness :
  exists p q,
    nth_error (curvePoints 5) 3 = Some p
    /\ nth_error (curvePoints 5) 7 = Some q
    /\ (CurvePoint.retention q <= CurvePoint.retention p)%Z.
Proof.
  eexists _, _. split; [reflexivity |]. split; [reflexivity |].
  refine (proj2 (proj1 (proj2 (proj2 (proj2
            (curvePoints_shape 5 3 7 _ _ _ eq_refl eq_refl)))))).
  lia.
Defined.

(** X20. For a positive strength, the curve and the scheduled day count
    agree up to the rounding of the latter: the curve starts at retention
    100, every day before the scheduled day is not yet due, and every day
    after it is due. *)
Theorem curvePoints_schedule (S : R) (t : nat) (p : CurvePoint.t) :
  0 < S ->
  nth_error (curvePoints S) t = Some p ->
  (t = 0%nat -> CurvePoint.retention p = 100%Z /\ CurvePoint.isDue p = false)
  /\ ((Z.of_nat t < calculateNextReviewDays S None)%Z -> CurvePoint.isDue p = false)
  /\ ((calculateNextReviewDays S None < Z.of_nat t)%Z -> CurvePoint.isDue p = true).
Proof.
  intros HS Hp. apply curvePoints_nth in Hp as [_ ->].
  cbn [CurvePoint.retention CurvePoint.isDue].
  pose proof (day_count_error S HS) as [Hlo Hhi].
  change (calculateNextReviewDays S (Some 40)) with (calculateNextReviewDays S None) in *.
  pose proof (retention_at_thresholdDay S HS) as H40.
  pose proof (thresholdDay_pos S HS) as Hpos.
  assert (Ht : 0 <= INR t) by apply pos_INR.
  split; [| split].
  - intros ->. simpl INR.
    assert (H100 : calculateRetention 0 S = 100).
    { rewrite calculateRetention_after_review by lra.
      unfold Rdiv. rewrite Rmult_0_l, Ropp_0, exp_0. lra. }
    rewrite H100. split; [apply round_IZR |].
    destruct (Rle_dec 100 40); [lra | reflexivity].
  - intros Hbefore.
    assert (Hlt : INR t < Spec.thresholdDay S 40).
    { rewrite INR_IZR_INZ.
      assert (Hstep : IZR (Z.of_nat t) + 1 <= IZR (calculateNextReviewDays S None)).
      { rewrite <- plus_IZR. apply IZR_le. lia. }
      lra. }
    pose proof (calculateRetention_decreasing S (INR t) (Spec.thresholdDay S 40) HS
                  (conj Ht Hlt)).
    destruct (Rle_dec (calculateRetention (INR t) S) 40); [lra | reflexivity].
  - intros Hafter.
    assert (Hge : Spec.thresholdDay S 40 <= INR t).
    { rewrite INR_IZR_INZ.
      assert (Hstep : IZR (calculateNextReviewDays S None) + 1 <= IZR (Z.of_nat t)).
      { rewrite <- plus_IZR. apply IZR_le. lia. }
      lra. }
    pose proof (calculateRetention_antitone S (Spec.thresholdDay S 40) (INR t) HS Hge).
    destruct (Rle_dec (calculateRetention (INR t) S) 40); [reflexivity | lra].
Qed.

Lemma curvePoints_schedule_witness :
  exists p, nth_error (curvePoints 5) 9 = Some p /\ CurvePoint.isDue p = true.
Proof.
  eexists. split; [reflexivity |].
  refine (proj2 (proj2 (curvePoints_schedule 5 9 _ _ eq_refl)) _); [lra |].
  rewrite calculateNextReviewDays_default_strength. simpl. lia.
Defined.

End CurveFacts.

Section ControllerFacts.
Import RetentionAlgorithm EnhancedQuizController.

Lemma lastOrNull_snoc {A : Type} (l : list A) (x : A) : lastOrNull (l ++ [x]) = Some x.
Proof.
  unfold lastOrNull. rewrite length_app. simpl length.
  destruct (Nat.ltb_spec 0 (length l + 1)) as [_ | H]; [| lia].
  replace (length l + 1 - 1)%nat with (length l) by lia.
  rewrite nth_error_app2 by lia. now rewrite Nat.sub_diag.
Qed.

Lemma filter_none {A : Type} (p : A -> bool) (l : list A) :
  Forall (fun y => p y = false) l -> filter p l = [].
Proof.
  induction 1 as [| y l Hy _ IH]; [reflexivity |]. simpl. now rewrite Hy.
Qed.

Lemma filter_latest {A : Type} (p : A -> bool) (before after : list A) (x : A) :
  p x = true -> Forall (fun y => p y = false) after ->
  filter p (before ++ x :: after) = filter p before ++ [x].
Proof.
  intros Hx Hafter. rewrite filter_app. simpl. rewrite Hx.
  now rewrite (filter_none p after Hafter).
Qed.

(** X21. The retention curve of a quiz is drawn from the student's latest
    stored attempt at that quiz, whatever the earlier attempts and the
    attempts at other quizzes are, with the strength 5 standing in for a
    missing or zero strength; a student with no attempt at the quiz gets
    an empty curve and a message, not an error. *)
Theorem getRetentionCurve_latest_attempt (quizId : Z)
    (before after : list StoredAttempt.t) (x : StoredAttempt.t) :
  QuizRef._id (StoredAttempt.quiz x) = quizId ->
  Forall (fun y => QuizRef._id (StoredAttempt.quiz y) <> quizId) after ->
  getRetentionCurve (Some (before ++ x :: after)) quizId
  = Status200
      (CurveResponse.mk
         (Some (JS.or_default (Attempt.S (StoredAttempt.fields x)) 5))
         (Some (Attempt.date (StoredAttempt.fields x)))
         (curvePoints (JS.or_default (Attempt.S (StoredAttempt.fields x)) 5))
         (Some (calculateNextReviewDays
                  (JS.or_default (Attempt.S (StoredAttempt.fields x)) 5) None))
         None)
  /\ getRetentionCurve (Some after) quizId
     = Status200
         (CurveResponse.mk None None [] None
            (Some "No attempts found for this quiz"%string)).
Proof.
  intros Hx Hafter.
  assert (Hoff : Forall (fun y => (QuizRef._id (StoredAttempt.quiz y) =? quizId)%Z = false)
                   after).
  { eapply Forall_impl; [| exact Hafter]. intros y Hy. now apply Z.eqb_neq. }
  unfold getRetentionCurve. split.
  - rewrite filter_latest; [| now apply Z.eqb_eq | exact Hoff].
    rewrite map_app. simpl map. rewrite lastOrNull_snoc. reflexivity.
  - rewrite (filter_none _ after Hoff). reflexivity.
Qed.

Lemma getRetentionCurve_latest_attempt_witness :
  getRetentionCurve (Some Stored.student) 1
  = Status200
      (CurveResponse.mk (Some 5) (Some (996 * Examples.day)%Z) (curvePoints 5)
         (Some (calculateNextReviewDays 5 None)) None).
Proof.
  destruct (getRetentionCurve_latest_attempt 1 [Stored.early; Stored.other]
              [Stored.loose] Stored.late) as [Hcurve _].
  - reflexivity.
  - repeat constructor. simpl. lia.
  - change Stored.student
      with ([Stored.early; Stored.other] ++ Stored.late :: [Stored.loose]).
    rewrite Hcurve. simpl.
    unfold JS.or_default. destruct (Req_dec_T 5 0); [lra | reflexivity].
Defined.

Lemma slice_top_ten {A : Type} (l : list A) : JS.slice l 0 (Some 10%Z) = firstn 10 l.
Proof.
  unfold JS.slice, JS.clampIndex.
  change (0 <? 0)%Z with false. change (10 <? 0)%Z with false. cbv iota.
  replace (Z.to_nat (Z.min 0 (Z.of_nat (length l)))) with 0%nat by lia.
  simpl skipn.
  destruct (Nat.le_gt_cases 10 (length l)) as [Hlong | Hshort].
  - f_equal. lia.
  - rewrite !firstn_all2 by lia. reflexivity.
Qed.

(** X22. [quizzesWithHistory] keeps the quizzes in their order, one entry
    each; the last attempt of an entry is the student's latest stored
    attempt at that quiz, and it is absent when the student has none. *)
Theorem quizzesWithHistory_entries (quizAttempts : list StoredAttempt.t)
    (quizzes : list Z) :
  map Quiz.quizId (quizzesWithHistory quizAttempts quizzes) = quizzes
  /\ Forall (fun q =>
               (Forall (fun y => QuizRef._id (StoredAttempt.quiz y) <> Quiz.quizId q)
                  quizAttempts ->
                Quiz.lastAttempt q = None)
               /\ (forall before x after,
                     quizAttempts = before ++ x :: after ->
                     QuizRef._id (StoredAttempt.quiz x) = Quiz.quizId q ->
                     Forall (fun y => QuizRef._id (StoredAttempt.quiz y) <> Quiz.quizId q)
                       after ->
                     Quiz.lastAttempt q = Some (StoredAttempt.fields x)))
       (quizzesWithHistory quizAttempts quizzes).
Proof.
  split.
  - unfold quizzesWithHistory. rewrite map_map. simpl. apply map_id.
  - apply Forall_forall. intros q Hq. unfold quizzesWithHistory in Hq.
    apply in_map_iff in Hq as (quiz & <- & _). simpl. split.
    + intros Hnone. rewrite filter_none; [reflexivity |].
      eapply Forall_impl; [| exact Hnone]. intros y Hy. now apply Z.eqb_neq.
    + intros before x after -> Hx Hafter.
      rewrite filter_latest; [| now apply Z.eqb_eq |].
      * rewrite map_app. simpl map. apply lastOrNull_snoc.
      * eapply Forall_impl; [| exact Hafter]. intros y Hy. now apply Z.eqb_neq.
Qed.

(** The last attempt of an entry of [quizzesWithHistory] is one of the
    stored attempts. *)
Lemma quizzesWithHistory_lastAttempt (quizAttempts : list StoredAttempt.t)
    (quizzes : list Z) (q : Quiz.t) (a : Attempt.t) :
  In q (quizzesWithHistory quizAttempts quizzes) ->
  Quiz.lastAttempt q = Some a ->
  exists y, In y quizAttempts /\ StoredAttempt.fields y = a.
Proof.
  unfold quizzesWithHistory. intros Hq Ha.
  apply in_map_iff in Hq as (quiz & <- & _). simpl in Ha.
  unfold lastOrNull in Ha. destruct (0 <? _)%nat; [| discriminate].
  apply nth_error_In, in_map_iff in Ha as (y & Hy & Hin).
  apply filter_In in Hin as [Hin _]. eauto.
Qed.

(** What the ranker makes of stored attempts without next review date. *)
Lemma undated_result_shape (now : Z) (q : Quiz.t) :
  (forall a, Quiz.lastAttempt q = Some a -> Attempt.nextReviewDate a = None) ->
  (Quiz.lastAttempt q = None
   /\ Recommendation.isDue (recommend now q) = true
   /\ Recommendation.priority (recommend now q) = high
   /\ Recommendation.daysUntilDue (recommend now q) = JS.Fin 0)
  \/ (Quiz.lastAttempt q <> None
      /\ Recommendation.isDue (recommend now q) = false
      /\ Recommendation.priority (recommend now q) <> medium
      /\ Recommendation.daysUntilDue (recommend now q) = JS.NaN).
Proof.
  intros Hundated. destruct (Quiz.lastAttempt q) as [a |] eqn:Hq.
  - right. rewrite (recommend_undated now q a Hq (Hundated a eq_refl)). simpl.
    split; [discriminate |]. split; [reflexivity |].
    split; [destruct (Rlt_dec _ 70); discriminate | reflexivity].
  - left. rewrite (recommend_new now q Hq). auto.
Qed.

(** On such results the comparator puts a low result after a high one and
    separates nothing else. *)
Lemma compareFn_undated (a b : Recommendation.t) :
  Recommendation.priority a <> medium -> Recommendation.priority b <> medium ->
  (Recommendation.daysUntilDue a = JS.Fin 0 \/ Recommendation.daysUntilDue a = JS.NaN) ->
  (Recommendation.daysUntilDue b = JS.Fin 0 \/ Recommendation.daysUntilDue b = JS.NaN) ->
  JS.positive (compareFn a b)
  = match Recommendation.priority a, Recommendation.priority b with
    | low, high => true
    | _, _ => false
    end.
Proof.
  intros Ha Hb Da Db. unfold compareFn.
  destruct (Recommendation.priority a), (Recommendation.priority b);
    try contradiction; simpl;
    try (destruct Da as [-> | ->], Db as [-> | ->]; simpl; try reflexivity;
         destruct (Rlt_dec 0 (0 - 0)); [lra | reflexivity]);
    destruct (Rlt_dec 0 _); try reflexivity; lra.
Qed.

Lemma due_are_never_attempted (now : Z) (entries : list Quiz.t) :
  (forall q, In q entries ->
     (Quiz.lastAttempt q = None
      /\ Recommendation.isDue (recommend now q) = true
      /\ Recommendation.priority (recommend now q) = high
      /\ Recommendation.daysUntilDue (recommend now q) = JS.Fin 0)
     \/ (Quiz.lastAttempt q <> None
         /\ Recommendation.isDue (recommend now q) = false
         /\ Recommendation.priority (recommend now q) <> medium
         /\ Recommendation.daysUntilDue (recommend now q) = JS.NaN)) ->
  filter Recommendation.isDue (map (recommend now) entries)
  = map (recommend now)
      (filter (fun q => match Quiz.lastAttempt q with None => true | Some _ => false end)
         entries).
Proof.
  intros Hshape. induction entries as [| q l IH]; [reflexivity |].
  specialize (IH (fun x Hx => Hshape x (or_intror Hx))).
  simpl.
  destruct (Hshape q (or_introl eq_refl)) as [(Hq & Hd & _) | (Hq & Hd & _)];
    rewrite Hd.
  - rewrite Hq. simpl. now rewrite IH.
  - destruct (Quiz.lastAttempt q); [exact IH | contradiction].
Qed.

(** X23. For a student that exists, [getRecommendedQuizzes] answers with
    the first ten results of the ranking, the number of quizzes as
    [totalAvailable] and the number of due results as [dueCount].  For
    stored attempts without next review date, as the submit handler writes
    them, no attempted quiz is ever due or medium: [dueCount] is the number
    of quizzes the student never attempted, and the ranking lists the
    results of high priority (never attempted, or last score below 70) in
    their input order, followed by the others in their input order. *)
Theorem getRecommendedQuizzes_response (now : Z) (quizAttempts : list StoredAttempt.t)
    (quizzes : list Z) :
  getRecommendedQuizzes now (Some quizAttempts) quizzes
  = Status200
      (RecommendedResponse.mk
         (firstn 10 (getQuizRecommendations now (quizzesWithHistory quizAttempts quizzes)))
         (length quizzes)
         (length (filter Recommendation.isDue
                    (map (recommend now) (quizzesWithHistory quizAttempts quizzes)))))
  /\ length (firstn 10
               (getQuizRecommendations now (quizzesWithHistory quizAttempts quizzes)))
     = Nat.min 10 (length quizzes)
  /\ (Forall (fun y => Attempt.nextReviewDate (StoredAttempt.fields y) = None)
        quizAttempts ->
      filter Recommendation.isDue
        (map (recommend now) (quizzesWithHistory quizAttempts quizzes))
      = map (recommend now)
          (filter (fun q => match Quiz.lastAttempt q with None => true | Some _ => false end)
             (quizzesWithHistory quizAttempts quizzes))
      /\ Forall (fun r => Recommendation.priority r <> medium)
           (getQuizRecommendations now (quizzesWithHistory quizAttempts quizzes))
      /\ getQuizRecommendations now (quizzesWithHistory quizAttempts quizzes)
         = filter (fun r => match Recommendation.priority r with high => true | _ => false end)
             (map (recommend now) (quizzesWithHistory quizAttempts quizzes))
           ++ filter (fun r => negb match Recommendation.priority r with
                                    | high => true
                                    | _ => false
                                    end)
                (map (recommend now) (quizzesWithHistory quizAttempts quizzes))).
Proof.
  set (entries := quizzesWithHistory quizAttempts quizzes).
  set (out := getQuizRecommendations now entries).
  assert (Hlen : length out = length quizzes).
  { unfold out, getQuizRecommendations.
    rewrite <- (Permutation_length (sort_perm compareFn _)).
    rewrite length_map. unfold entries, quizzesWithHistory. apply length_map. }
  split.
  { unfold getRecommendedQuizzes. fold entries. fold out.
    rewrite slice_top_ten, Hlen. unfold out. now rewrite due_results_stable. }
  split; [rewrite length_firstn, Hlen; reflexivity |].
  intros Hundated.
  assert (Hshape : forall q, In q entries ->
            (Quiz.lastAttempt q = None
             /\ Recommendation.isDue (recommend now q) = true
             /\ Recommendation.priority (recommend now q) = high
             /\ Recommendation.daysUntilDue (recommend now q) = JS.Fin 0)
            \/ (Quiz.lastAttempt q <> None
                /\ Recommendation.isDue (recommend now q) = false
                /\ Recommendation.priority (recommend now q) <> medium
                /\ Recommendation.daysUntilDue (recommend now q) = JS.NaN)).
  { intros q Hq. apply undated_result_shape. intros a Ha.
    destruct (quizzesWithHistory_lastAttempt _ _ q a Hq Ha) as (y & Hy & <-).
    rewrite Forall_forall in Hundated. now apply Hundated. }
  assert (Hdom : forall r, In r (map (recommend now) entries) ->
            Recommendation.priority r <> medium
            /\ (Recommendation.daysUntilDue r = JS.Fin 0
                \/ Recommendation.daysUntilDue r = JS.NaN)).
  { intros r Hr. apply in_map_iff in Hr as (q & <- & Hq).
    destruct (Hshape q Hq) as [(_ & _ & Hp & Hd) | (_ & _ & Hp & Hd)].
    - rewrite Hp, Hd. split; [discriminate | now left].
    - rewrite Hd. split; [exact Hp | now right]. }
  split; [| split].
  - apply due_are_never_attempted. exact Hshape.
  - apply Forall_forall. intros r Hr. unfold out, getQuizRecommendations in Hr.
    apply sort_In in Hr. now apply Hdom.
  - set (isHigh := fun r => match Recommendation.priority r with
                            | high => true
                            | _ => false
                            end).
    assert (Hsorted : StronglySorted (fun a b => JS.positive (compareFn a b) = false) out).
    { unfold out, getQuizRecommendations.
      apply (sort_sorted compareFn
               (fun r => Recommendation.priority r <> medium
                         /\ (Recommendation.daysUntilDue r = JS.Fin 0
                             \/ Recommendation.daysUntilDue r = JS.NaN))).
      - intros a b c [Pa Da] [Pb Db] [Pc Dc].
        rewrite !compareFn_undated by assumption.
        destruct (Recommendation.priority a), (Recommendation.priority b),
          (Recommendation.priority c); congruence.
      - intros a b [Pa Da] [Pb Db].
        rewrite !compareFn_undated by assumption.
        destruct (Recommendation.priority a), (Recommendation.priority b); congruence.
      - apply Forall_forall. exact Hdom. }
    assert (Hin : forall r, In r out -> In r (map (recommend now) entries))
      by (intros r Hr; unfold out, getQuizRecommendations in Hr; now apply sort_In in Hr).
    rewrite (sorted_partition compareFn isHigh out Hsorted).
    + unfold out, getQuizRecommendations. f_equal.
      * apply filter_sort. intros x y Hx Hy Hpx Hgt.
        destruct (Hdom x Hx) as [Px Dx]. destruct (Hdom y Hy) as [Py Dy].
        rewrite compareFn_undated in Hgt by assumption. unfold isHigh in *.
        destruct (Recommendation.priority x), (Recommendation.priority y);
          congruence.
      * apply filter_sort. intros x y Hx Hy Hpx Hgt.
        destruct (Hdom x Hx) as [Px Dx]. destruct (Hdom y Hy) as [Py Dy].
        rewrite compareFn_undated in Hgt by assumption. unfold isHigh in *.
        destruct (Recommendation.priority x), (Recommendation.priority y);
          simpl in *; congruence.
    + intros x y Hx Hy Hpx Hpy.
      destruct (Hdom x (Hin x Hx)) as [Px Dx]. destruct (Hdom y (Hin y Hy)) as [Py Dy].
      rewrite compareFn_undated by assumption. unfold isHigh in *.
      destruct (Recommendation.priority x), (Recommendation.priority y);
        congruence.
Qed.

Lemma stored_student_undated :
  Forall (fun y => Attempt.nextReviewDate (StoredAttempt.fields y) = None) Stored.student.
Proof. repeat constructor. Qed.

Lemma getRecommendedQuizzes_response_witness :
  Forall (fun r => Recommendation.priority r <> medium)
    (getQuizRecommendations Examples.now
       (quizzesWithHistory Stored.student [1; 2; 3; 4]%Z)).
Proof.
  destruct (getRecommendedQuizzes_response Examples.now Stored.student [1; 2; 3; 4]%Z)
    as (_ & _ & Hundated).
  destruct (Hundated stored_student_undated) as (_ & Hmedium & _).
  exact Hmedium.
Defined.

(** X24. The statistics of a lesson are those of the student's attempts
    whose quiz belongs to the lesson, in their stored order; attempts at a
    quiz without a chapter are never counted, and a lesson without
    attempts gets the same record as the engine gives for no attempts. *)
Theorem getLessonStats_response (now : Z) (quizAttempts : list StoredAttempt.t)
    (lessonId : Z) :
  getLessonStats now (Some quizAttempts) lessonId
  = Status200
      (calculateLessonStats now
         (Lesson.mk
            (Some (map StoredAttempt.fields
                     (filter (fun attempt =>
                                match QuizRef.chapter (StoredAttempt.quiz attempt) with
                                | Some chapter => (chapter =? lessonId)%Z
                                | None => false
                                end) quizAttempts)))))
  /\ (Forall (fun attempt => QuizRef.chapter (StoredAttempt.quiz attempt) <> Some lessonId)
        quizAttempts ->
      getLessonStats now (Some quizAttempts) lessonId
      = Status200 (LessonStats.mk 0 0 5 0 neutral None)).
Proof.
  unfold getLessonStats.
  set (lessonAttempts := filter _ quizAttempts).
  split.
  - destruct lessonAttempts as [| x rest]; reflexivity.
  - intros Hnone.
    assert (Hempty : lessonAttempts = []).
    { apply filter_none. eapply Forall_impl; [| exact Hnone].
      intros y Hy. simpl in *.
      destruct (QuizRef.chapter (StoredAttempt.quiz y)) as [c |]; [| reflexivity].
      apply Z.eqb_neq. congruence. }
    rewrite Hempty. reflexivity.
Qed.

Lemma getLessonStats_response_witness :
  getLessonStats Examples.now (Some Stored.student) 8
  = Status200 (LessonStats.mk 0 0 5 0 neutral None).
Proof.
  apply getLessonStats_response.
  unfold Stored.student. repeat constructor; simpl; discriminate.
Defined.

End ControllerFacts.

Section GradingFacts.
Import EnhancedQuizController.
Context {Answer : Type} (Answer_eq_dec : forall x y : Answer, {x = y} + {x <> y}).

Lemma gradeSubmission_accepted (questions : list Question) (answers : list Answer) :
  length answers = length questions ->
  gradeSubmission Answer_eq_dec questions (Some answers)
  = Status200
      (map (fun qa : Question * Answer =>
              let (question, answer) := qa in
              mkGraded
                (if Answer_eq_dec (correctAnswer question) answer then true else false)
                answer (correctAnswer question) (explanation question))
         (combine questions answers),
       match
         JS.div
           (INR (length
                   (filter isCorrect
                      (map (fun qa : Question * Answer =>
                              let (question, answer) := qa in
                              mkGraded
                                (if Answer_eq_dec (correctAnswer question) answer
                                 then true else false)
                                answer (correctAnswer question) (explanation question))
                         (combine questions answers)))))
           (INR (length questions))
       with
       | JS.Fin ratio => JS.Fin (IZR (JS.round (ratio * 100)))
       | other => other
       end).
Proof.
  intros Hlen. unfold gradeSubmission.
  rewrite (proj2 (Nat.eqb_eq _ _) Hlen). reflexivity.
Qed.

Lemma correct_count_all (questions : list Question) :
  length
    (filter isCorrect
       (map (fun qa : Question * Answer =>
               let (question, answer) := qa in
               mkGraded
                 (if Answer_eq_dec (correctAnswer question) answer then true else false)
                 answer (correctAnswer question) (explanation question))
          (combine questions (map correctAnswer questions))))
  = length questions.
Proof.
  induction questions as [| q l IH]; [reflexivity |]. simpl.
  destruct (Answer_eq_dec (correctAnswer q) (correctAnswer q)); [| contradiction].
  simpl. now rewrite IH.
Qed.

Lemma correct_count_none (questions : list Question) (answers : list Answer) :
  Forall2 (fun q a => correctAnswer q <> a) questions answers ->
  length
    (filter isCorrect
       (map (fun qa : Question * Answer =>
               let (question, answer) := qa in
               mkGraded
                 (if Answer_eq_dec (correctAnswer question) answer then true else false)
                 answer (correctAnswer question) (explanation question))
          (combine questions answers)))
  = 0%nat.
Proof.
  induction 1 as [| q a l l' Hqa _ IH]; [reflexivity |]. simpl.
  destruct (Answer_eq_dec (correctAnswer q) a); [contradiction | exact IH].
Qed.

Lemma correct_count_le {B : Type} (p : B -> bool) (l : list B) :
  (length (filter p l) <= length l)%nat.
Proof.
  induction l as [| x l IH]; simpl; [lia |]. destruct (p x); simpl; lia.
Qed.

(** X25. A submission without answers, or with a number of answers other
    than the number of questions, is refused with status 400 and nothing
    is scored; a quiz without questions answered by an empty array is
    accepted and its score is not a number. *)
Theorem gradeSubmission_validation (questions : list Question) :
  gradeSubmission Answer_eq_dec questions None
  = Status400 "Invalid submission: number of answers does not match number of questions"
  /\ (forall answers, length answers <> length questions ->
        gradeSubmission Answer_eq_dec questions (Some answers)
        = Status400
            "Invalid submission: number of answers does not match number of questions")
  /\ gradeSubmission Answer_eq_dec [] (Some []) = Status200 ([], JS.NaN).
Proof.
  split; [reflexivity |]. split.
  - intros answers Hlen. unfold gradeSubmission.
    rewrite (proj2 (Nat.eqb_neq _ _) Hlen). reflexivity.
  - unfold gradeSubmission, JS.div. simpl.
    destruct (Req_dec_T 0 0); [| lra].
    destruct (Rlt_dec 0 0); [lra | reflexivity].
Qed.

(** X26. For a quiz with questions and as many answers, the submission is
    accepted with one result for each question and a score that is a whole
    number between 0 and 100: 100 when every answer is the correct one, 0
    when none is. *)
Theorem gradeSubmission_score (questions : list Question) (answers : list Answer) :
  questions <> [] ->
  length answers = length questions ->
  exists results n,
    gradeSubmission Answer_eq_dec questions (Some answers)
    = Status200 (results, JS.Fin (IZR n))
    /\ length results = length questions
    /\ (0 <= n <= 100)%Z
    /\ (answers = map correctAnswer questions -> n = 100%Z)
    /\ (Forall2 (fun q a => correctAnswer q <> a) questions answers -> n = 0%Z).
Proof.
  intros Hne Hlen. rewrite gradeSubmission_accepted by assumption.
  set (results := map _ (combine questions answers)).
  assert (Hres : length results = length questions).
  { unfold results. rewrite length_map, length_combine. lia. }
  assert (Htotal : 0 < INR (length questions)).
  { apply lt_0_INR. destruct questions; [contradiction | simpl; lia]. }
  unfold JS.div. destruct (Req_dec_T (INR (length questions)) 0) as [Hz | _]; [lra |].
  eexists results, _. split; [reflexivity |].
  split; [exact Hres |].
  assert (Hcount : 0 <= INR (length (filter isCorrect results)) <= INR (length questions)).
  { split; [apply pos_INR |]. apply le_INR. rewrite <- Hres. apply correct_count_le. }
  split; [| split].
  - apply round_within.
    assert (Hq : 0 <= INR (length (filter isCorrect results)) / INR (length questions) <= 1).
    { split.
      - apply Rmult_le_reg_r with (INR (length questions)); [assumption |].
        unfold Rdiv. rewrite Rmult_assoc, Rinv_l by lra. lra.
      - apply Rmult_le_reg_r with (INR (length questions)); [assumption |].
        unfold Rdiv. rewrite Rmult_assoc, Rinv_l by lra. lra. }
    lra.
  - intros ->. unfold results. rewrite correct_count_all.
    replace (INR (length questions) / INR (length questions) * 100) with 100
      by (field; lra).
    apply round_IZR.
  - intros Hnone. unfold results. rewrite (correct_count_none _ _ Hnone).
    replace (INR 0 / INR (length questions) * 100) with 0
      by (simpl; unfold Rdiv; ring).
    apply round_IZR.
Qed.

End GradingFacts.

Lemma gradeSubmission_validation_witness :
  EnhancedQuizController.gradeSubmission Z.eq_dec Stored.questions (Some [2%Z])
  = Status400 "Invalid submission: number of answers does not match number of questions".
Proof.
  apply (gradeSubmission_validation Z.eq_dec Stored.questions). simpl. lia.
Defined.

Lemma gradeSubmission_score_witness :
  exists results n,
    EnhancedQuizController.gradeSubmission Z.eq_dec Stored.questions (Some [2%Z; 0%Z])
    = Status200 (results, JS.Fin (IZR n))
    /\ n = 100%Z.
Proof.
  destruct (gradeSubmission_score Z.eq_dec Stored.questions [2%Z; 0%Z])
    as (results & n & Hgrade & _ & _ & Hall & _).
  - discriminate.
  - reflexivity.
  - exists results, n. split; [exact Hgrade | apply Hall; reflexivity].
Defined.

Section SubmitFacts.
Import RetentionAlgorithm EnhancedQuizController.
Context {Answer : Type} (Answer_eq_dec : forall x y : Answer, {x = y} + {x <> y}).

(** X8. For a quiz with at least one question and as many answers, the
    score the submit handler computes is a finite whole number, and for
    every history and clock the strength [updateLearningStrength] returns
    for that score is finite and lies between 1 and 60, the retention lies
    between 20 and 95, and the day count [calculateNextReviewDays] gives
    for that strength lies between 1 and 55. *)
Theorem submitted_score_bounds (questions : list Question) (answers : list Answer)
    (now : Z) (attemptHistory : option (list Attempt.t)) :
  questions <> [] ->
  length answers = length questions ->
  exists results n s,
    gradeSubmission Answer_eq_dec questions (Some answers)
    = Status200 (results, JS.Fin (IZR n))
    /\ StrengthUpdate.S (updateLearningStrength now attemptHistory (IZR n)) = JS.Fin s
    /\ 1 <= s <= 60
    /\ 20 <= StrengthUpdate.retention
                (updateLearningStrength now attemptHistory (IZR n)) <= 95
    /\ (1 <= calculateNextReviewDays s None <= 55)%Z.
Proof.
  intros Hne Hlen. rewrite gradeSubmission_accepted by assumption.
  assert (Htotal : 0 < INR (length questions)).
  { apply lt_0_INR. destruct questions; [contradiction | simpl; lia]. }
  unfold JS.div. destruct (Req_dec_T (INR (length questions)) 0) as [Hz | _]; [lra |].
  eexists _, _.
  match goal with
  | |- exists s, Status200 (_, JS.Fin (IZR ?m)) = _ /\ _ =>
      destruct (strength_update_bounds now attemptHistory (IZR m)) as (s & HS & Hs & Hr & Hd)
  end.
  exists s. split; [reflexivity |]. auto.
Qed.

End SubmitFacts.

Lemma submitted_score_bounds_witness :
  exists results n s,
    EnhancedQuizController.gradeSubmission Z.eq_dec Stored.questions (Some [2%Z; 1%Z])
    = Status200 (results, JS.Fin (IZR n))
    /\ StrengthUpdate.S
         (RetentionAlgorithm.updateLearningStrength Examples.now
            (Some [Examples.firstTry]) (IZR n))
       = JS.Fin s
    /\ 1 <= s <= 60.
Proof.
  destruct (submitted_score_bounds Z.eq_dec Stored.questions [2%Z; 1%Z] Examples.now
              (Some [Examples.firstTry]))
    as (results & n & s & Hgrade & HS & Hs & _).
  - discriminate.
  - reflexivity.
  - exists results, n, s. auto.
Defined.

(** ** The socket registry *)

Section SocketFacts.
Import SocketServer.

Lemma lookup_assign_same (m : UserSockets) (userId socketId : string) :
  lookup (assign m userId socketId) userId = Some socketId.
Proof.
  induction m as [| [k v] m IH]; simpl.
  - now rewrite String.eqb_refl.
  - destruct (String.eqb k userId) eqn:Hk; simpl; rewrite Hk; [reflexivity | exact IH].
Qed.

Lemma lookup_assign_other (m : UserSockets) (userId socketId other : string) :
  other <> userId -> lookup (assign m userId socketId) other = lookup m other.
Proof.
  intros Hne. induction m as [| [k v] m IH]; simpl.
  - destruct (String.eqb_spec userId other); [congruence | reflexivity].
  - destruct (String.eqb_spec k userId) as [-> | Hk]; simpl.
    + destruct (String.eqb_spec userId other); [congruence | reflexivity].
    + destruct (String.eqb k other); [reflexivity | exact IH].
Qed.

(** X27. After a ['join'] with a user id that is not empty, the user is
    registered under the joining socket, replacing any earlier socket, a
    message to that user is emitted, and the entries of all other users
    are as before; a ['join'] without a user id changes nothing. *)
Theorem join_registers (m : UserSockets) (socketId userId : string) :
  (userId <> EmptyString ->
   lookup (join socketId userId m) userId = Some socketId
   /\ (socketId <> EmptyString -> sendMessage (join socketId userId m) userId = true)
   /\ (forall other, other <> userId ->
         lookup (join socketId userId m) other = lookup m other))
  /\ join socketId EmptyString m = m.
Proof.
  split; [| reflexivity].
  intros Hid. unfold join, sendMessage.
  destruct (String.eqb_spec userId EmptyString) as [| _]; [contradiction |].
  rewrite lookup_assign_same.
  split; [reflexivity |]. split.
  - intros Hs. destruct (String.eqb_spec socketId EmptyString); [contradiction | reflexivity].
  - intros other Hother. now apply lookup_assign_other.
Qed.

Lemma join_registers_witness :
  lookup (join "socketB" "alice" [("alice", "socketA"); ("bob", "socketC")]%string) "alice"
  = Some "socketB"%string.
Proof.
  apply (join_registers [("alice", "socketA"); ("bob", "socketC")]%string
           "socketB" "alice").
  discriminate.
Defined.

Lemma lookup_disconnect_other (m : UserSockets) (socketId userId kept : string) :
  lookup m userId = Some kept -> kept <> socketId ->
  lookup (disconnect socketId m) userId = Some kept.
Proof.
  intros Hl Hne. induction m as [| [k v] m IH]; [discriminate |].
  simpl in *. destruct (String.eqb_spec v socketId) as [-> | Hv].
  - destruct (String.eqb_spec k userId) as [-> | Hk]; [congruence | exact Hl].
  - simpl. destruct (String.eqb k userId); [exact Hl | now apply IH].
Qed.

(** X28. A ['disconnect'] leaves every user registered under another
    socket registered as before; in particular a user who joined again
    from a new socket stays registered when the old socket disconnects. *)
Theorem disconnect_keeps_others (m : UserSockets) (socketId userId kept : string) :
  kept <> socketId ->
  (lookup m userId = Some kept -> lookup (disconnect socketId m) userId = Some kept)
  /\ (userId <> EmptyString ->
      lookup (disconnect socketId (join kept userId m)) userId = Some kept).
Proof.
  intros Hne. split.
  - intros Hl. now apply lookup_disconnect_other.
  - intros Hid. apply lookup_disconnect_other; [| assumption].
    unfold join. destruct (String.eqb_spec userId EmptyString); [contradiction |].
    apply lookup_assign_same.
Qed.

Lemma disconnect_keeps_others_witness :
  lookup (disconnect "socketA" (join "socketB" "alice" [("alice", "socketA")]%string))
    "alice"
  = Some "socketB"%string.
Proof.
  apply (disconnect_keeps_others [("alice", "socketA")]%string "socketA" "alice" "socketB");
    discriminate.
Defined.

(** X29. A ['disconnect'] deletes at most one entry: when two different
    users are registered under the disconnecting socket, one of them is
    still registered under it afterwards, and a socket no user is
    registered under leaves the registry unchanged. *)
Theorem disconnect_deletes_one (m : UserSockets) (socketId user1 user2 : string) :
  (user1 <> user2 ->
   lookup m user1 = Some socketId -> lookup m user2 = Some socketId ->
   lookup (disconnect socketId m) user1 = Some socketId
   \/ lookup (disconnect socketId m) user2 = Some socketId)
  /\ (Forall (fun entry => snd entry <> socketId) m -> disconnect socketId m = m)
  /\ (length m <= S (length (disconnect socketId m)))%nat.
Proof.
  split; [| split].
  - intros Hne. induction m as [| [k v] m IH]; [discriminate |].
    simpl. intros H1 H2.
    destruct (String.eqb_spec v socketId) as [-> | Hv].
    + destruct (String.eqb_spec k user1) as [-> | Hk1].
      * destruct (String.eqb_spec user1 user2); [contradiction | now right].
      * now left.
    + simpl.
      destruct (String.eqb_spec k user1); [congruence |].
      destruct (String.eqb_spec k user2); [congruence |].
      now apply IH.
  - induction 1 as [| [k v] m Hv _ IH]; [reflexivity |]. simpl in *.
    destruct (String.eqb_spec v socketId); [contradiction | now rewrite IH].
  - induction m as [| [k v] m IH]; simpl; [lia |].
    destruct (String.eqb v socketId); simpl; lia.
Qed.

Lemma disconnect_deletes_one_witness :
  lookup (disconnect "socketA" [("alice", "socketA"); ("bob", "socketA")]%string) "alice"
  = Some "socketA"%string
  \/ lookup (disconnect "socketA" [("alice", "socketA"); ("bob", "socketA")]%string) "bob"
     = Some "socketA"%string.
Proof.
  apply (disconnect_deletes_one [("alice", "socketA"); ("bob", "socketA")]%string
           "socketA" "alice" "bob"); [discriminate | reflexivity | reflexivity].
Defined.

End SocketFacts.
